(** * Cartridge GPIO bus of the GBA core (src/gba/gba-gpio.c)

    A shallow embedding of the pin-level protocol engine: the register
    interface of the shared four-pin bus, the real-time clock, the
    gyroscope, the rumble observer, the light sensor, the tilt sensor and
    the save-state capture and restoration, followed by the properties
    established about them.

    Integers are [Z]; a store into a fixed-width field is written out as a
    mask ([u4], [u8], [u16]).  The C bit operators are [Z.land], [Z.lor],
    [Z.lnot], [Z.shiftl], [Z.shiftr] and [Z.testbit]. *)

From Stdlib Require Import ZArith List Bool Lia.

Import ListNotations.

Open Scope Z_scope.

(** ** Fixed-width stores *)

Definition u4 (x : Z) : Z := Z.land x 15.

Definition u8 (x : Z) : Z := Z.land x 255.

Definition u16 (x : Z) : Z := Z.land x 65535.

Definition u32 (x : Z) : Z := Z.land x 4294967295.

(** A C truth value used as an integer. *)
Definition b2z (b : bool) : Z := if b then 1 else 0.

(** A C integer used as a condition. *)
Definition truthy (x : Z) : bool := negb (x =? 0).

(** ** Host capabilities (struct GBA: rtcSource, rotationSource, rumble,
    luminanceSource)

    The readings are what the capability returns when the bus asks; the
    bus calls [sample] before each reading, so a [Host] value stands for
    the host at the moment of one bus operation. *)

(** The fields of [struct tm] that [_rtcUpdateClock] reads. *)
Record tm : Type := mk_tm {
  tm_year : Z;
  tm_mon : Z;
  tm_mday : Z;
  tm_wday : Z;
  tm_hour : Z;
  tm_min : Z;
  tm_sec : Z
}.

Record GBARotationSource : Type := mkRotation {
  readGyroZ : Z;
  readTiltX : option Z;
  readTiltY : option Z
}.

Record Host : Type := mkHost {
  (** [localtime] of the time source's [unixTime], or of [time(0)] when
      no time source is installed. *)
  date : tm;
  rotationSource : option GBARotationSource;
  (** Whether a rumble sink is installed. *)
  rumble : bool;
  (** [readLuminance] of the luminance source, when installed. *)
  luminanceSource : option Z
}.

(** ** Constants of the absent headers *)

(** Modelled from the spec: the register offsets of gba-gpio.h
    (section 4.1: DATA 0, DIRECTION 1, CONTROL 2). *)
Definition GPIO_REG_DATA : Z := 0.

Definition GPIO_REG_DIRECTION : Z := 1.

Definition GPIO_REG_CONTROL : Z := 2.

(** Modelled from the spec: the device flags of gba-gpio.h, one bit per
    member of the attached set {RTC, GYRO, RUMBLE, LIGHT, TILT}. *)
Definition GPIO_NONE : Z := 0.

Definition GPIO_RTC : Z := 1.

Definition GPIO_RUMBLE : Z := 2.

Definition GPIO_LIGHT_SENSOR : Z := 4.

Definition GPIO_GYRO : Z := 8.

Definition GPIO_TILT : Z := 16.

(** Modelled from the spec: the visibility mode of gba-gpio.h in which
    CPU reads see zero. *)
Definition GPIO_WRITE_ONLY : Z := 0.

(** Modelled from the spec: the command indices of gba-gpio.h (the
    command table of section 3). *)
Definition RTC_RESET : Z := 0.

Definition RTC_DATETIME : Z := 2.

Definition RTC_FORCE_IRQ : Z := 3.

Definition RTC_CONTROL : Z := 4.

Definition RTC_TIME : Z := 6.

Definition RTC_BYTES : list Z := [0; 0; 7; 0; 1; 0; 3; 0].

(** ** The clock's state (struct GBARTC)

    Modelled from the spec: the field widths of gba-gpio.h (section 3):
    [bits] and [bytesRemaining] are bytes, [commandActive] is a boolean,
    [command] and [control] are packed bytes, [time] holds seven bytes.
    [transferStep] and [bitsRead] are plain integers: the code keeps them
    within 0..2 and 0..8. *)
Record GBARTC : Type := mkRTC {
  bytesRemaining : Z;
  transferStep : Z;
  bitsRead : Z;
  bits : Z;
  commandActive : bool;
  command : Z;
  control : Z;
  time : list Z
}.

(** Modelled from the spec: the bit-fields of union RTCCommandData
    (section 9: magic in the high nibble, command index in bits 1-3,
    the reading bit in bit 0). *)
Definition magic (packed : Z) : Z := Z.land (Z.shiftr packed 4) 15.

Definition command_index (packed : Z) : Z := Z.land (Z.shiftr packed 1) 7.

Definition reading (packed : Z) : bool := Z.testbit packed 0.

Definition clear_reading (packed : Z) : Z := Z.land packed 254.

(** Modelled from the spec: the [hour24] bit-field of union RTCControl
    (section 9: bit 6). *)
Definition hour24 (packed : Z) : bool := Z.testbit packed 6.

(** ** The bus (struct GBACartridgeGPIO)

    Modelled from the spec: the field widths of gba-gpio.h (section 3):
    [pinState] and [direction] are four bits wide, [readWrite] is a
    boolean, [gyroSample] is 16 bits, [lightCounter] and [lightSample]
    are bytes, [tiltX] and [tiltY] are 12 bits.  [gpioBase] stands for
    the word [gpioBase[0]], the
    memory-mapped register word the CPU reads; it lives outside the
    struct. *)
Record GBACartridgeGPIO : Type := mkGPIO {
  gpioDevices : Z;
  readWrite : bool;
  gpioBase : Z;
  pinState : Z;
  direction : Z;
  rtc : GBARTC;
  gyroSample : Z;
  gyroEdge : bool;
  lightCounter : Z;
  lightSample : Z;
  lightEdge : bool;
  tiltX : Z;
  tiltY : Z;
  tiltState : Z
}.

(** The pin and direction bit-fields overlaid on [pinState] and
    [direction]. *)
Definition p0 (g : GBACartridgeGPIO) : bool := Z.testbit (pinState g) 0.

Definition p1 (g : GBACartridgeGPIO) : bool := Z.testbit (pinState g) 1.

Definition p2 (g : GBACartridgeGPIO) : bool := Z.testbit (pinState g) 2.

Definition p3 (g : GBACartridgeGPIO) : bool := Z.testbit (pinState g) 3.

Definition dir1 (g : GBACartridgeGPIO) : bool := Z.testbit (direction g) 1.

(** Field updates. *)
Definition set_gpioDevices (v : Z) (g : GBACartridgeGPIO) : GBACartridgeGPIO :=
  mkGPIO v (readWrite g) (gpioBase g) (pinState g) (direction g) (rtc g)
    (gyroSample g) (gyroEdge g) (lightCounter g) (lightSample g) (lightEdge g)
    (tiltX g) (tiltY g) (tiltState g).

Definition set_readWrite (v : bool) (g : GBACartridgeGPIO) : GBACartridgeGPIO :=
  mkGPIO (gpioDevices g) v (gpioBase g) (pinState g) (direction g) (rtc g)
    (gyroSample g) (gyroEdge g) (lightCounter g) (lightSample g) (lightEdge g)
    (tiltX g) (tiltY g) (tiltState g).

Definition set_gpioBase (v : Z) (g : GBACartridgeGPIO) : GBACartridgeGPIO :=
  mkGPIO (gpioDevices g) (readWrite g) v (pinState g) (direction g) (rtc g)
    (gyroSample g) (gyroEdge g) (lightCounter g) (lightSample g) (lightEdge g)
    (tiltX g) (tiltY g) (tiltState g).

Definition set_pinState (v : Z) (g : GBACartridgeGPIO) : GBACartridgeGPIO :=
  mkGPIO (gpioDevices g) (readWrite g) (gpioBase g) v (direction g) (rtc g)
    (gyroSample g) (gyroEdge g) (lightCounter g) (lightSample g) (lightEdge g)
    (tiltX g) (tiltY g) (tiltState g).

Definition set_direction (v : Z) (g : GBACartridgeGPIO) : GBACartridgeGPIO :=
  mkGPIO (gpioDevices g) (readWrite g) (gpioBase g) (pinState g) v (rtc g)
    (gyroSample g) (gyroEdge g) (lightCounter g) (lightSample g) (lightEdge g)
    (tiltX g) (tiltY g) (tiltState g).

Definition set_rtc (v : GBARTC) (g : GBACartridgeGPIO) : GBACartridgeGPIO :=
  mkGPIO (gpioDevices g) (readWrite g) (gpioBase g) (pinState g) (direction g) v
    (gyroSample g) (gyroEdge g) (lightCounter g) (lightSample g) (lightEdge g)
    (tiltX g) (tiltY g) (tiltState g).

Definition set_gyro (s : Z) (e : bool) (g : GBACartridgeGPIO) : GBACartridgeGPIO :=
  mkGPIO (gpioDevices g) (readWrite g) (gpioBase g) (pinState g) (direction g) (rtc g)
    s e (lightCounter g) (lightSample g) (lightEdge g)
    (tiltX g) (tiltY g) (tiltState g).

Definition set_light (c s : Z) (e : bool) (g : GBACartridgeGPIO) : GBACartridgeGPIO :=
  mkGPIO (gpioDevices g) (readWrite g) (gpioBase g) (pinState g) (direction g) (rtc g)
    (gyroSample g) (gyroEdge g) c s e
    (tiltX g) (tiltY g) (tiltState g).

Definition set_tilt (x y st : Z) (g : GBACartridgeGPIO) : GBACartridgeGPIO :=
  mkGPIO (gpioDevices g) (readWrite g) (gpioBase g) (pinState g) (direction g) (rtc g)
    (gyroSample g) (gyroEdge g) (lightCounter g) (lightSample g) (lightEdge g)
    x y st.

Definition set_bytesRemaining (v : Z) (r : GBARTC) : GBARTC :=
  mkRTC v (transferStep r) (bitsRead r) (bits r) (commandActive r)
    (command r) (control r) (time r).

Definition set_transferStep (v : Z) (r : GBARTC) : GBARTC :=
  mkRTC (bytesRemaining r) v (bitsRead r) (bits r) (commandActive r)
    (command r) (control r) (time r).

Definition set_bitsRead (v : Z) (r : GBARTC) : GBARTC :=
  mkRTC (bytesRemaining r) (transferStep r) v (bits r) (commandActive r)
    (command r) (control r) (time r).

Definition set_bits (v : Z) (r : GBARTC) : GBARTC :=
  mkRTC (bytesRemaining r) (transferStep r) (bitsRead r) v (commandActive r)
    (command r) (control r) (time r).

Definition set_commandActive (v : bool) (r : GBARTC) : GBARTC :=
  mkRTC (bytesRemaining r) (transferStep r) (bitsRead r) (bits r) v
    (command r) (control r) (time r).

Definition set_command (v : Z) (r : GBARTC) : GBARTC :=
  mkRTC (bytesRemaining r) (transferStep r) (bitsRead r) (bits r) (commandActive r)
    v (control r) (time r).

Definition set_control (v : Z) (r : GBARTC) : GBARTC :=
  mkRTC (bytesRemaining r) (transferStep r) (bitsRead r) (bits r) (commandActive r)
    (command r) v (time r).

Definition set_time (v : list Z) (r : GBARTC) : GBARTC :=
  mkRTC (bytesRemaining r) (transferStep r) (bitsRead r) (bits r) (commandActive r)
    (command r) (control r) v.

(** ** Initialisation *)

Definition GBAGPIOClear (g : GBACartridgeGPIO) : GBACartridgeGPIO :=
  let g := set_gpioDevices GPIO_NONE g in
  let g := set_direction GPIO_WRITE_ONLY g in
  let g := set_pinState 0 g in
  set_direction 0 g.

(** [base] is the content of the word the bus is mapped on. *)
Definition GBAGPIOInit (g : GBACartridgeGPIO) (base : Z) : GBACartridgeGPIO :=
  GBAGPIOClear (set_gpioBase base g).

Definition GBAGPIOInitRTC (g : GBACartridgeGPIO) : GBACartridgeGPIO :=
  let g := set_gpioDevices (Z.lor (gpioDevices g) GPIO_RTC) g in
  set_rtc (mkRTC 0 0 0 0 false 0 64 [0; 0; 0; 0; 0; 0; 0]) g.

Definition GBAGPIOInitGyro (g : GBACartridgeGPIO) : GBACartridgeGPIO :=
  set_gyro 0 false (set_gpioDevices (Z.lor (gpioDevices g) GPIO_GYRO) g).

Definition GBAGPIOInitRumble (g : GBACartridgeGPIO) : GBACartridgeGPIO :=
  set_gpioDevices (Z.lor (gpioDevices g) GPIO_RUMBLE) g.

Definition GBAGPIOInitLightSensor (g : GBACartridgeGPIO) : GBACartridgeGPIO :=
  set_light 0 255 false
    (set_gpioDevices (Z.lor (gpioDevices g) GPIO_LIGHT_SENSOR) g).

Definition GBAGPIOInitTilt (g : GBACartridgeGPIO) : GBACartridgeGPIO :=
  set_tilt 4095 4095 0 (set_gpioDevices (Z.lor (gpioDevices g) GPIO_TILT) g).

(** ** The output helper *)

Definition _outputPins (g : GBACartridgeGPIO) (pins : Z) : GBACartridgeGPIO :=
  if readWrite g then
    let old := gpioBase g in
    let old := Z.land old (direction g) in
    let g := set_pinState
               (u4 (Z.lor old (Z.land (Z.land pins (Z.lnot (direction g))) 15))) g in
    set_gpioBase (pinState g) g
  else g.

(** ** The clock (RTC) *)

Definition _rtcBCD (value : Z) : Z :=
  let value := u32 value in
  let counter := value mod 10 in
  let value := value / 10 in
  counter + Z.shiftl (value mod 10) 4.

(** [time[i]]; the array has seven entries, and the model reads 0 where C
    would read outside it. *)
Definition time_at (t : list Z) (i : Z) : Z :=
  if i <? 0 then 0 else nth (Z.to_nat i) t 0.

Definition _rtcUpdateClock (h : Host) (g : GBACartridgeGPIO) : GBACartridgeGPIO :=
  let d := date h in
  let hour :=
    if hour24 (control (rtc g)) then _rtcBCD (tm_hour d)
    else _rtcBCD (Z.rem (tm_hour d) 12) in
  set_rtc
    (set_time
       [ u8 (_rtcBCD (tm_year d - 100));
         u8 (_rtcBCD (tm_mon d + 1));
         u8 (_rtcBCD (tm_mday d));
         u8 (_rtcBCD (tm_wday d));
         u8 hour;
         u8 (_rtcBCD (tm_min d));
         u8 (_rtcBCD (tm_sec d)) ]
       (rtc g)) g.

Definition _rtcOutput (g : GBACartridgeGPIO) : Z :=
  let r := rtc g in
  let c := command_index (command r) in
  let outputByte :=
    if c =? RTC_CONTROL then control r
    else if (c =? RTC_DATETIME) || (c =? RTC_TIME)
         then time_at (time r) (7 - bytesRemaining r)
    else 0 in
  Z.land (Z.shiftr outputByte (bitsRead r)) 1.

Definition _rtcProcessByte (h : Host) (g : GBACartridgeGPIO) : GBACartridgeGPIO :=
  let g := set_rtc (set_bytesRemaining (u8 (bytesRemaining (rtc g) - 1)) (rtc g)) g in
  let g :=
    if negb (commandActive (rtc g)) then
      let cmd := u8 (bits (rtc g)) in
      if magic cmd =? 6 then
        let g := set_rtc (set_command cmd (rtc g)) g in
        let g := set_rtc (set_bytesRemaining
                            (nth (Z.to_nat (command_index (command (rtc g)))) RTC_BYTES 0)
                            (rtc g)) g in
        let g := set_rtc (set_commandActive (0 <? bytesRemaining (rtc g)) (rtc g)) g in
        let c := command_index cmd in
        if c =? RTC_RESET then set_rtc (set_control 0 (rtc g)) g
        else if (c =? RTC_DATETIME) || (c =? RTC_TIME) then _rtcUpdateClock h g
        else g
      else g
    else
      if command_index (command (rtc g)) =? RTC_CONTROL
      then set_rtc (set_control (u8 (bits (rtc g))) (rtc g)) g
      else g in
  let g := set_rtc (set_bits 0 (rtc g)) g in
  let g := set_rtc (set_bitsRead 0 (rtc g)) g in
  if bytesRemaining (rtc g) =? 0 then
    let g := set_rtc (set_commandActive false (rtc g)) g in
    set_rtc (set_command (clear_reading (command (rtc g))) (rtc g)) g
  else g.

Definition _rtcReadPins (h : Host) (g : GBACartridgeGPIO) : GBACartridgeGPIO :=
  if transferStep (rtc g) =? 0 then
    if Z.land (pinState g) 5 =? 1
    then set_rtc (set_transferStep 1 (rtc g)) g
    else g
  else if transferStep (rtc g) =? 1 then
    if Z.land (pinState g) 5 =? 5
    then set_rtc (set_transferStep 2 (rtc g)) g
    else g
  else if transferStep (rtc g) =? 2 then
    if negb (p0 g) then
      let g := set_rtc (set_bits
                 (u8 (Z.land (bits (rtc g)) (Z.lnot (Z.shiftl 1 (bitsRead (rtc g))))))
                 (rtc g)) g in
      set_rtc (set_bits
                 (u8 (Z.lor (bits (rtc g)) (Z.shiftl (b2z (p1 g)) (bitsRead (rtc g)))))
                 (rtc g)) g
    else if p2 g then
      if dir1 g then
        let g := set_rtc (set_bitsRead (bitsRead (rtc g) + 1) (rtc g)) g in
        if bitsRead (rtc g) =? 8 then _rtcProcessByte h g else g
      else
        let g := _outputPins g (Z.lor 5 (Z.shiftl (_rtcOutput g) 1)) in
        let g := set_rtc (set_bitsRead (bitsRead (rtc g) + 1) (rtc g)) g in
        if bitsRead (rtc g) =? 8 then
          let g := set_rtc (set_bytesRemaining (u8 (bytesRemaining (rtc g) - 1)) (rtc g)) g in
          let g :=
            if bytesRemaining (rtc g) <=? 0 then
              let g := set_rtc (set_commandActive false (rtc g)) g in
              set_rtc (set_command (clear_reading (command (rtc g))) (rtc g)) g
            else g in
          set_rtc (set_bitsRead 0 (rtc g)) g
        else g
    else
      let g := set_rtc (set_bitsRead 0 (rtc g)) g in
      let g := set_rtc (set_bytesRemaining 0 (rtc g)) g in
      let g := set_rtc (set_commandActive false (rtc g)) g in
      let g := set_rtc (set_command (clear_reading (command (rtc g))) (rtc g)) g in
      set_rtc (set_transferStep 0 (rtc g)) g
  else g.

(** ** The gyroscope *)

Definition _gyroReadPins (h : Host) (g : GBACartridgeGPIO) : GBACartridgeGPIO :=
  match rotationSource h with
  | None => g
  | Some gyro =>
    let g :=
      if p0 g then
        let sample := readGyroZ gyro in
        set_gyro (u16 (Z.shiftr sample 21 + 1728)) (gyroEdge g) g
      else g in
    let g :=
      if gyroEdge g && negb (p1 g) then
        let bit := Z.shiftr (gyroSample g) 15 in
        let g := set_gyro (u16 (Z.shiftl (gyroSample g) 1)) (gyroEdge g) g in
        _outputPins g (Z.shiftl bit 2)
      else g in
    set_gyro (gyroSample g) (p1 g) g
  end.

(** ** Rumble

    The observer leaves the bus unchanged; its effect is the call of the
    sink's [setRumble], given here as the level it passes, if it calls. *)

Definition _rumbleReadPins (h : Host) (g : GBACartridgeGPIO) : option bool :=
  if rumble h then Some (p3 g) else None.

(** ** The light sensor *)

Definition _lightReadPins (h : Host) (g : GBACartridgeGPIO) : GBACartridgeGPIO :=
  if p2 g then g
  else
    let g :=
      if p1 g then
        let g := set_light 0 (lightSample g) (lightEdge g) g in
        match luminanceSource h with
        | Some lux => set_light (lightCounter g) (u8 lux) (lightEdge g) g
        | None => set_light (lightCounter g) 255 (lightEdge g) g
        end
      else g in
    let g :=
      if p0 g && lightEdge g
      then set_light (u8 (lightCounter g + 1)) (lightSample g) (lightEdge g) g
      else g in
    let g := set_light (lightCounter g) (lightSample g) (negb (p0 g)) g in
    let sendBit := lightSample g <=? lightCounter g in
    _outputPins g (Z.shiftl (b2z sendBit) 3).

(** ** The register interface *)

(** The devices are notified in the order RTC, gyro, rumble, light; the
    rumble observer changes nothing on the bus, and its call of the sink
    is [rumble_signal] below. *)
Definition _readPins (h : Host) (g : GBACartridgeGPIO) : GBACartridgeGPIO :=
  let g := if truthy (Z.land (gpioDevices g) GPIO_RTC) then _rtcReadPins h g else g in
  let g := if truthy (Z.land (gpioDevices g) GPIO_GYRO) then _gyroReadPins h g else g in
  if truthy (Z.land (gpioDevices g) GPIO_LIGHT_SENSOR) then _lightReadPins h g else g.

(** The level handed to the rumble sink during [_readPins], if any: the
    rumble observer runs after the RTC and the gyroscope. *)
Definition rumble_signal (h : Host) (g : GBACartridgeGPIO) : option bool :=
  let g := if truthy (Z.land (gpioDevices g) GPIO_RTC) then _rtcReadPins h g else g in
  let g := if truthy (Z.land (gpioDevices g) GPIO_GYRO) then _gyroReadPins h g else g in
  if truthy (Z.land (gpioDevices g) GPIO_RUMBLE) then _rumbleReadPins h g else None.

(** The first half of a DATA write: the pin state handed to the devices. *)
Definition write_data_pins (g : GBACartridgeGPIO) (value : Z) : GBACartridgeGPIO :=
  let g := set_pinState (u4 (Z.land (pinState g) (Z.lnot (direction g)))) g in
  set_pinState (u4 (Z.lor (pinState g) value)) g.

(** The publish step that ends every register write. *)
Definition publish (g : GBACartridgeGPIO) : GBACartridgeGPIO :=
  if readWrite g then
    let old := gpioBase g in
    let old := u16 (Z.land old (Z.lnot (direction g))) in
    set_gpioBase (Z.lor old (pinState g)) g
  else set_gpioBase 0 g.

Definition GBAGPIOWrite (h : Host) (g : GBACartridgeGPIO) (address value : Z)
  : GBACartridgeGPIO :=
  let value := u16 value in
  let g :=
    if address =? GPIO_REG_DATA then _readPins h (write_data_pins g value)
    else if address =? GPIO_REG_DIRECTION then set_direction (u4 value) g
    else if address =? GPIO_REG_CONTROL then set_readWrite (truthy value) g
    else g in
  publish g.

(** ** The tilt sensor *)

Definition u12 (x : Z) : Z := Z.land x 4095.

Definition GBAGPIOTiltWrite (h : Host) (g : GBACartridgeGPIO) (address value : Z)
  : GBACartridgeGPIO :=
  let value := u8 value in
  if address =? 32768 then
    if value =? 85 then set_tilt (tiltX g) (tiltY g) 1 g else g
  else if address =? 33024 then
    if (value =? 170) && (tiltState g =? 1) then
      let g := set_tilt (tiltX g) (tiltY g) 0 g in
      match rotationSource h with
      | None => g
      | Some rotation =>
        match readTiltX rotation, readTiltY rotation with
        | Some x, Some y =>
          set_tilt (u12 (Z.shiftr x 21 + 928)) (u12 (Z.shiftr y 21 + 928))
            (tiltState g) g
        | _, _ => g
        end
      end
    else g
  else g.

Definition GBAGPIOTiltRead (g : GBACartridgeGPIO) (address : Z) : Z :=
  if address =? 33280 then Z.land (tiltX g) 255
  else if address =? 33536 then Z.lor (Z.land (Z.shiftr (tiltX g) 8) 15) 128
  else if address =? 33792 then Z.land (tiltY g) 255
  else if address =? 34048 then Z.land (Z.shiftr (tiltY g) 8) 15
  else 255.

(** ** Serialization

    The [gpio] block of struct GBASerializedState (gba-serialize.h),
    its fields prefixed with [st_]; every field holds the value stored
    into it. *)
Record GBASerializedState : Type := mkState {
  st_readWrite : bool;
  st_pinState : Z;
  st_pinDirection : Z;
  st_devices : Z;
  st_rtc : GBARTC;
  st_gyroSample : Z;
  st_gyroEdge : bool;
  st_tiltSampleX : Z;
  st_tiltSampleY : Z;
  st_tiltState : Z;
  st_lightCounter : Z;
  st_lightSample : Z;
  st_lightEdge : bool
}.

Definition GBAGPIOSerialize (g : GBACartridgeGPIO) (state : GBASerializedState)
  : GBASerializedState :=
  mkState (readWrite g) (pinState g) (direction g) (gpioDevices g) (rtc g)
    (gyroSample g) (gyroEdge g) (tiltX g) (tiltY g) (tiltState g)
    (lightCounter g) (lightSample g) (lightEdge g).

Definition GBAGPIODeserialize (g : GBACartridgeGPIO) (state : GBASerializedState)
  : GBACartridgeGPIO :=
  let g := set_readWrite (st_readWrite state) g in
  let g := set_pinState (st_pinState state) g in
  let g := set_direction (st_pinDirection state) g in
  let g := set_rtc (st_rtc state) g in
  let g := set_gyro (st_gyroSample state) (st_gyroEdge state) g in
  let g := set_tilt (st_tiltSampleX state) (st_tiltSampleY state) (st_tiltState state) g in
  set_light (st_lightCounter state) (st_lightSample state) (st_lightEdge state) g.

(** * Vocabulary of the properties *)

(** ** Operations of the CPU on the bus, and what it observes

    A register write shows the published word and, when the rumble
    observer ran, the level handed to the sink; a register read shows the
    published word; a tilt read shows the byte returned. *)

Inductive Op : Type :=
| OpWrite (address value : Z)
| OpRead
| OpTiltWrite (address value : Z)
| OpTiltRead (address : Z).

Inductive Obs : Type :=
| ObsWord (w : Z)
| ObsRumble (level : bool)
| ObsTilt (byte : Z).

Definition step (h : Host) (op : Op) (g : GBACartridgeGPIO)
  : GBACartridgeGPIO * list Obs :=
  match op with
  | OpWrite address value =>
    let g' := GBAGPIOWrite h g address value in
    let r :=
      if address =? GPIO_REG_DATA then
        match rumble_signal h (write_data_pins g (u16 value)) with
        | Some level => [ObsRumble level]
        | None => []
        end
      else [] in
    (g', r ++ [ObsWord (gpioBase g')])
  | OpRead => (g, [ObsWord (gpioBase g)])
  | OpTiltWrite address value => (GBAGPIOTiltWrite h g address value, [])
  | OpTiltRead address => (g, [ObsTilt (GBAGPIOTiltRead g address)])
  end.

(** A run: each operation comes with the host's readings at that moment. *)
Fixpoint run (ops : list (Host * Op)) (g : GBACartridgeGPIO)
  : GBACartridgeGPIO * list Obs :=
  match ops with
  | [] => (g, [])
  | (h, op) :: ops =>
    let (g1, o1) := step h op g in
    let (g2, o2) := run ops g1 in
    (g2, o1 ++ o2)
  end.

Definition final (ops : list (Host * Op)) (g : GBACartridgeGPIO) : GBACartridgeGPIO :=
  fst (run ops g).

Definition observations (ops : list (Host * Op)) (g : GBACartridgeGPIO) : list Obs :=
  snd (run ops g).

(** Iterating an operation of the CPU, and collecting what it reads
    after each round. *)
Fixpoint rounds {A : Type} (round : A -> A) (n : nat) (a : A) : A :=
  match n with
  | O => a
  | S n => rounds round n (round a)
  end.

Fixpoint readings {A B : Type} (round : A -> A) (read : A -> B) (n : nat) (a : A)
  : list B :=
  match n with
  | O => []
  | S n => read (round a) :: readings round read n (round a)
  end.

(** A zeroed struct, and a host with no capability installed. *)
Definition zeroed : GBACartridgeGPIO :=
  mkGPIO 0 false 0 0 0 (mkRTC 0 0 0 0 false 0 0 [0; 0; 0; 0; 0; 0; 0])
    0 false 0 0 false 0 0 0.

Definition epoch : tm := mk_tm 70 0 1 4 0 0 0.

Definition bare_host : Host := mkHost epoch None false None.

(** The states a cartridge's bus can be in: initialised over a zeroed
    struct, devices attached, then driven by the CPU. *)
Inductive reachable : GBACartridgeGPIO -> Prop :=
| reach_init base : reachable (GBAGPIOInit zeroed base)
| reach_rtc g : reachable g -> reachable (GBAGPIOInitRTC g)
| reach_gyro g : reachable g -> reachable (GBAGPIOInitGyro g)
| reach_rumble g : reachable g -> reachable (GBAGPIOInitRumble g)
| reach_light g : reachable g -> reachable (GBAGPIOInitLightSensor g)
| reach_tilt g : reachable g -> reachable (GBAGPIOInitTilt g)
| reach_step h op g : reachable g -> reachable (fst (step h op g)).

(** ** Register writes *)

(** The pin state the masked rule, which keeps only the CPU-driven bits
    of the written value, would hand to the devices. *)
Definition masked_data_pins (g : GBACartridgeGPIO) (value : Z) : Z :=
  Z.lor (Z.land (pinState g) (Z.lnot (direction g))) (Z.land value (direction g)).

(** A bus with pin 0 driven by the CPU and pins 1-3 by the devices. *)
Definition pin0_cpu_bus : GBACartridgeGPIO :=
  set_direction 1 (GBAGPIOInit zeroed 0).

(** ** Visibility *)

(** What the CPU can see of the pins: the pin state and the published
    word. *)
Definition same_pins (g g' : GBACartridgeGPIO) : Prop :=
  pinState g' = pinState g /\ gpioBase g' = gpioBase g /\ readWrite g' = readWrite g.

Definition hidden (g : GBACartridgeGPIO) : Prop :=
  readWrite g = false -> gpioBase g = 0.

(** The sample the gyroscope shifts on a falling edge of pin 1: the one
    just latched when pin 0 is high, the stored one otherwise. *)
Definition gyro_latched (gyro : GBARotationSource) (g : GBACartridgeGPIO) : Z :=
  if p0 g then u16 (Z.shiftr (readGyroZ gyro) 21 + 1728) else gyroSample g.

Definition outputs_dropped (h : Host) (g : GBACartridgeGPIO) : Prop :=
  (forall pins, _outputPins g pins = g)
  /\ same_pins g (_rtcReadPins h g)
  /\ same_pins g (_gyroReadPins h g)
  /\ same_pins g (_lightReadPins h g)
  /\ (forall gyro, rotationSource h = Some gyro ->
        gyroEdge g = true -> p1 g = false ->
        gyroSample (_gyroReadPins h g) = u16 (Z.shiftl (gyro_latched gyro g) 1)).

Definition word_hidden (h : Host) (g : GBACartridgeGPIO) : Prop :=
  (forall address value, hidden (GBAGPIOWrite h g address value))
  /\ (forall address value ops, hidden (final ops (GBAGPIOWrite h g address value)))
  /\ (hidden g ->
      (forall pins, hidden (_outputPins g pins))
      /\ hidden (_rtcReadPins h g)
      /\ hidden (_gyroReadPins h g)
      /\ hidden (_lightReadPins h g)).

Definition gyro_host : Host :=
  mkHost epoch (Some (mkRotation 88080384 None None)) false None.

Definition hidden_falling : GBACartridgeGPIO :=
  mkGPIO (Z.lor GPIO_GYRO GPIO_RTC) false 0 0 7
    (mkRTC 0 0 0 0 false 0 64 [0; 0; 0; 0; 0; 0; 0])
    32769 true 0 255 false 4095 4095 0.

Definition light_host : Host := mkHost epoch None false (Some 1).

(** A bus with a light sensor, pins 0-2 driven by the CPU, visibility
    off. *)
Definition hidden_light_bus : GBACartridgeGPIO :=
  final [(light_host, OpWrite GPIO_REG_DIRECTION 7);
         (light_host, OpWrite GPIO_REG_DATA 2)]
        (GBAGPIOInitLightSensor (GBAGPIOInit zeroed 0)).

(** ** Save states *)

Definition set_st_devices (d : Z) (state : GBASerializedState) : GBASerializedState :=
  mkState (st_readWrite state) (st_pinState state) (st_pinDirection state) d
    (st_rtc state) (st_gyroSample state) (st_gyroEdge state)
    (st_tiltSampleX state) (st_tiltSampleY state) (st_tiltState state)
    (st_lightCounter state) (st_lightSample state) (st_lightEdge state).

Definition blank_state : GBASerializedState :=
  mkState false 0 0 0 (mkRTC 0 0 0 0 false 0 0 []) 0 false 0 0 0 0 0 false.

(** A cartridge with a light sensor whose luminance source reads 1; the
    CPU drives pins 0-2, has turned visibility on and has reset the
    sensor. *)
Definition light_bus : GBACartridgeGPIO :=
  final [(light_host, OpWrite GPIO_REG_DIRECTION 7);
         (light_host, OpWrite GPIO_REG_CONTROL 1);
         (light_host, OpWrite GPIO_REG_DATA 2)]
        (GBAGPIOInitLightSensor (GBAGPIOInit zeroed 0)).

(** ** Transfers of the clock *)

(** The update that ends a byte the clock has sent. *)
Definition byte_sent (r : GBARTC) : GBARTC :=
  let r := set_bytesRemaining (u8 (bytesRemaining r - 1)) r in
  let r :=
    if bytesRemaining r <=? 0
    then set_command (clear_reading (command r)) (set_commandActive false r)
    else r in
  set_bitsRead 0 r.

(** The clock is the only device, the CPU drives pins 0 and 2 and reads
    pin 1, visibility is on, and the clock is in its byte-transfer step
    with command [c] active, [r] payload bytes to go and [k] bits of the
    current byte done. *)
Record rtc_transfer (c : Z) (t : list Z) (r k : Z) (g : GBACartridgeGPIO) : Prop := {
  rt_devices : gpioDevices g = GPIO_RTC;
  rt_direction : direction g = 5;
  rt_visible : readWrite g = true;
  rt_step : transferStep (rtc g) = 2;
  rt_command : command_index (command (rtc g)) = c;
  rt_active : commandActive (rtc g) = true;
  rt_bytes : bytesRemaining (rtc g) = r;
  rt_bits : bitsRead (rtc g) = k;
  rt_time : time (rtc g) = t
}.

(** One clock pulse with chip-select held high: pin 0 low, then high. *)
Definition clock_low (h : Host) (g : GBACartridgeGPIO) : GBACartridgeGPIO :=
  GBAGPIOWrite h g GPIO_REG_DATA 4.

Definition clock_high (h : Host) (g : GBACartridgeGPIO) : GBACartridgeGPIO :=
  GBAGPIOWrite h g GPIO_REG_DATA 5.

Definition pulse (h : Host) (g : GBACartridgeGPIO) : GBACartridgeGPIO :=
  clock_high h (clock_low h g).

(** The level of pin 1 the CPU reads in the published word. *)
Definition data_out (g : GBACartridgeGPIO) : bool := Z.testbit (gpioBase g) 1.

(** The bits the CPU reads on [n] successive pulses, and the bus after
    them. *)
Abbreviation emitted n h g := (readings (pulse h) data_out n g).

Abbreviation pulses n h g := (rounds (pulse h) n g).

(** A byte as it is sent: bit 0 first. *)
Definition bits_of (byte : Z) : list bool :=
  map (Z.testbit byte) [0; 1; 2; 3; 4; 5; 6; 7].

Definition time_read (h : Host) (g : GBACartridgeGPIO) (t : list Z) : Prop :=
  emitted 24 h g
  = bits_of (time_at t 4) ++ bits_of (time_at t 5) ++ bits_of (time_at t 6)
  /\ commandActive (rtc (pulses 24 h g)) = false.

Definition rtc_mid_transfer : GBACartridgeGPIO :=
  mkGPIO GPIO_RTC true 1 1 7
    (mkRTC 2 2 5 13 true 109 64 [4; 3; 21; 1; 19; 55; 66])
    0 false 0 255 false 4095 4095 0.

(** The clock after the command byte 0x6D (TIME, reading), the time
    13:37:42 latched. *)
Definition rtc_time_bus : GBACartridgeGPIO :=
  mkGPIO GPIO_RTC true 5 5 5
    (mkRTC 3 2 0 0 true 109 64 [4; 3; 21; 1; 19; 55; 66])
    0 false 0 255 false 4095 4095 0.

(** ** Command framing of the clock *)

(** The clock's handler as a step on the clock's own state: [g] is the
    bus as the handler finds it (pins, directions, visibility, published
    word), [r] the clock's state, which nothing else changes between two
    calls. *)
Definition rtc_step (h : Host) (g : GBACartridgeGPIO) (r : GBARTC) : GBARTC :=
  rtc (_rtcReadPins h (set_rtc r g)).

Fixpoint rtc_run (evs : list (Host * GBACartridgeGPIO)) (r : GBARTC) : GBARTC :=
  match evs with
  | [] => r
  | (h, g) :: evs => rtc_run evs (rtc_step h g r)
  end.

(** In the byte-transfer step a bit is exchanged when pin 0 is high with
    pin 2 high; pin 0 high with pin 2 low aborts. *)
Definition exchange (g : GBACartridgeGPIO) : bool := p0 g && p2 g.

Definition abort (g : GBACartridgeGPIO) : bool := p0 g && negb (p2 g).

Fixpoint exchanges (evs : list (Host * GBACartridgeGPIO)) : Z :=
  match evs with
  | [] => 0
  | (_, g) :: evs => b2z (exchange g) + exchanges evs
  end.

Definition no_abort (evs : list (Host * GBACartridgeGPIO)) : Prop :=
  forallb (fun e => negb (abort (snd e))) evs = true.

(** A command is active with [m] bit exchanges to go. *)
Record in_payload (m : Z) (r : GBARTC) : Prop := {
  ip_step : transferStep r = 2;
  ip_active : commandActive r = true;
  ip_bits : 0 <= bitsRead r <= 7;
  ip_bytes : 1 <= bytesRemaining r <= 255;
  ip_left : 8 * bytesRemaining r - bitsRead r = m
}.

Record idle (r : GBARTC) : Prop := {
  id_step : transferStep r = 2;
  id_active : commandActive r = false
}.

Definition framed (h : Host) (g : GBACartridgeGPIO)
    (evs : list (Host * GBACartridgeGPIO)) : Prop :=
  let n := nth (Z.to_nat (command_index (u8 (bits (rtc g))))) RTC_BYTES 0 in
  let r' := rtc (_rtcProcessByte h g) in
  bytesRemaining r' = n
  /\ commandActive r' = (0 <? n)
  /\ (no_abort evs -> exchanges evs <= 8 * n ->
      commandActive (rtc_run evs r') = (exchanges evs <? 8 * n)).

(** The clock with the command byte 0x6D (TIME, reading) received and
    about to be processed, and a bus with pins 0 and 2 high. *)
Definition rtc_header_bus : GBACartridgeGPIO :=
  mkGPIO GPIO_RTC true 5 5 5
    (mkRTC 0 2 0 109 false 0 64 [0; 0; 0; 0; 0; 0; 0])
    0 false 0 255 false 4095 4095 0.

Definition three_bytes : list (Host * GBACartridgeGPIO) :=
  repeat (bare_host, rtc_header_bus) 24.

(** ** The light sensor's protocol *)

(** The sample, the counter and the edge flag after the reset and edge
    handling of one update with pin 2 low. *)
Definition latched_sample (h : Host) : Z :=
  match luminanceSource h with
  | Some lux => u8 lux
  | None => 255
  end.

Definition light_sample_next (h : Host) (g : GBACartridgeGPIO) : Z :=
  if p1 g then latched_sample h else lightSample g.

Definition light_counter_next (g : GBACartridgeGPIO) : Z :=
  let c := if p1 g then 0 else lightCounter g in
  if p0 g && lightEdge g then u8 (c + 1) else c.

Definition light_next (h : Host) (g : GBACartridgeGPIO) : GBACartridgeGPIO :=
  set_light (light_counter_next g) (light_sample_next h g) (negb (p0 g)) g.

(** Whether the counter has reached the sample. *)
Definition light_reached (g : GBACartridgeGPIO) : bool :=
  lightSample g <=? lightCounter g.

(** A cartridge with only the light sensor; the CPU drives pins 0-2 and
    reads pin 3, visibility is on. *)
Record light_only (g : GBACartridgeGPIO) : Prop := {
  lo_devices : gpioDevices g = GPIO_LIGHT_SENSOR;
  lo_direction : direction g = 7;
  lo_visible : readWrite g = true
}.

(** Reset: pin 1 high with the clock low.  Tick: the clock low, then
    high, pin 1 low.  Pin 2 stays low throughout. *)
Definition light_reset (h : Host) (g : GBACartridgeGPIO) : GBACartridgeGPIO :=
  GBAGPIOWrite h g GPIO_REG_DATA 2.

Definition light_tick (h : Host) (g : GBACartridgeGPIO) : GBACartridgeGPIO :=
  GBAGPIOWrite h (GBAGPIOWrite h g GPIO_REG_DATA 0) GPIO_REG_DATA 1.

(** The level of pin 3 the CPU reads in the published word. *)
Definition pin3_out (g : GBACartridgeGPIO) : bool := Z.testbit (gpioBase g) 3.

(** The sensor between two ticks: the counter stands at [c], the sample
    latched is [s], and the CPU reads pin 3 high exactly when the counter
    has reached the sample. *)
Record light_counting (s c : Z) (g : GBACartridgeGPIO) : Prop := {
  lc_bus : light_only g;
  lc_counter : lightCounter g = c;
  lc_sample : lightSample g = s;
  lc_pin3 : pin3_out g = (s <=? c)
}.

Definition light_proposal (h : Host) (g : GBACartridgeGPIO) : Prop :=
  _lightReadPins h g
  = _outputPins (light_next h g) (Z.shiftl (b2z (light_reached (light_next h g))) 3)
  /\ lightCounter (_lightReadPins h g) = light_counter_next g
  /\ lightSample (_lightReadPins h g) = light_sample_next h g
  /\ (readWrite g = true -> Z.testbit (direction g) 3 = false ->
      p3 (_lightReadPins h g) = light_reached (_lightReadPins h g)).

Definition lux3_host : Host := mkHost epoch None false (Some 3).

(** * Properties *)

(** ** Bit-level facts *)

Lemma b2z_testbit0 (b : bool) : Z.testbit (b2z b) 0 = b.
Proof. destruct b; reflexivity. Qed.

Lemma land_1_testbit (x : Z) : Z.land x 1 = b2z (Z.testbit x 0).
Proof.
  change 1 with (Z.ones 1) at 1. rewrite Z.land_ones by lia.
  change (2 ^ 1) with 2. rewrite <- Z.bit0_mod.
  destruct (Z.testbit x 0); reflexivity.
Qed.

Lemma u8_small (x : Z) : 0 <= x <= 255 -> u8 x = x.
Proof.
  intros H. unfold u8. change 255 with (Z.ones 8).
  rewrite Z.land_ones by lia. apply Z.mod_small. change (2 ^ 8) with 256. lia.
Qed.

Lemma reading_clear (c : Z) : reading (clear_reading c) = false.
Proof.
  unfold reading, clear_reading.
  rewrite Z.land_spec. change (Z.testbit 254 0) with false.
  apply andb_false_r.
Qed.

Lemma command_index_range (c : Z) : 0 <= command_index c <= 7.
Proof.
  unfold command_index. change 7 with (Z.ones 3) at 1 2.
  rewrite Z.land_ones by lia. change (2 ^ 3) with 8.
  pose proof (Z.mod_pos_bound (Z.shiftr c 1) 8 ltac:(lia)). lia.
Qed.

Lemma u4_low_nibble (x v : Z) : u4 (Z.lor x (u16 v)) = u4 (Z.lor x (u16 (Z.land v 15))).
Proof.
  unfold u4, u16. apply Z.bits_inj'. intros n Hn.
  rewrite !Z.land_spec, !Z.lor_spec, !Z.land_spec.
  destruct (Z.testbit 15 n) eqn:E15; [|now rewrite !andb_false_r].
  assert (Z.testbit 65535 n = true) as ->.
  { assert (n < 4) by (destruct (Z.ltb_spec n 4); [assumption|];
      rewrite (Z.bits_above_log2 15 n) in E15; [discriminate|lia|simpl; lia]).
    assert (n = 0 \/ n = 1 \/ n = 2 \/ n = 3) as [->|[->|[->| ->]]] by lia;
      reflexivity. }
  now rewrite !andb_true_r.
Qed.

Lemma u4_u16_low_nibble (v : Z) : u4 (u16 v) = u4 (u16 (Z.land v 15)).
Proof.
  generalize (u4_low_nibble 0 v). now rewrite !Z.lor_0_l.
Qed.

(** The pin state a DATA write hands to the devices: the CPU-driven bits
    are cleared, then the whole written value is ORed in. *)
Lemma write_data_pins_spec (g : GBACartridgeGPIO) (value : Z) :
  pinState (write_data_pins g value)
  = u4 (Z.lor (Z.land (pinState g) (Z.lnot (direction g))) value).
Proof.
  unfold write_data_pins. cbn. unfold u4.
  apply Z.bits_inj'. intros n Hn.
  rewrite !Z.land_spec, !Z.lor_spec, !Z.land_spec.
  destruct (Z.testbit 15 n); now rewrite ?andb_true_r, ?andb_false_r.
Qed.

(** Pin [n] after the first half of a DATA write. *)
Lemma write_data_pins_testbit (g : GBACartridgeGPIO) (value n : Z) :
  0 <= n < 4 ->
  Z.testbit (pinState (write_data_pins g value)) n
  = (Z.testbit (pinState g) n && negb (Z.testbit (direction g) n))
    || Z.testbit value n.
Proof.
  intros Hn. rewrite write_data_pins_spec. unfold u4.
  rewrite Z.land_spec, Z.lor_spec, Z.land_spec, Z.lnot_spec by lia.
  assert (Z.testbit 15 n = true) as ->.
  { assert (n = 0 \/ n = 1 \/ n = 2 \/ n = 3) as [->|[->|[->| ->]]] by lia;
      reflexivity. }
  now rewrite andb_true_r.
Qed.

(** ** Runs *)

Lemma rounds_S {A} (round : A -> A) n a :
  rounds round (S n) a = rounds round n (round a).
Proof. reflexivity. Qed.

Lemma readings_S {A B} (round : A -> A) (read : A -> B) n a :
  readings round read (S n) a = read (round a) :: readings round read n (round a).
Proof. reflexivity. Qed.

Lemma rounds_add {A} (round : A -> A) n m a :
  rounds round (n + m) a = rounds round m (rounds round n a).
Proof.
  revert a. induction n as [|n IH]; intros a; [reflexivity|].
  rewrite Nat.add_succ_l, !rounds_S. apply IH.
Qed.

Lemma readings_add {A B} (round : A -> A) (read : A -> B) n m a :
  readings round read (n + m) a
  = readings round read n a ++ readings round read m (rounds round n a).
Proof.
  revert a. induction n as [|n IH]; intros a; [reflexivity|].
  rewrite Nat.add_succ_l, !readings_S, rounds_S, IH. reflexivity.
Qed.

Lemma final_cons h op ops g : final ((h, op) :: ops) g = final ops (fst (step h op g)).
Proof.
  unfold final. cbn [run].
  destruct (step h op g) as [g1 o1]. cbn [fst].
  destruct (run ops g1) as [g2 o2]. reflexivity.
Qed.

Lemma reachable_final ops : forall g, reachable g -> reachable (final ops g).
Proof.
  induction ops as [|[h op] ops IH]; intros g Hg.
  - exact Hg.
  - rewrite final_cons. apply IH. now apply reach_step.
Qed.

(** ** What each routine leaves alone *)

Lemma set_rtc_readWrite r g : readWrite (set_rtc r g) = readWrite g.
Proof. reflexivity. Qed.

Lemma same_pins_refl g : same_pins g g.
Proof. repeat split. Qed.

Lemma outputPins_frame g pins :
  _outputPins g pins
  = set_gpioBase (gpioBase (_outputPins g pins))
      (set_pinState (pinState (_outputPins g pins)) g).
Proof.
  unfold _outputPins. destruct g as [? [|] ? ? ? ? ? ? ? ? ? ? ? ?]; reflexivity.
Qed.

Lemma outputPins_visible g pins :
  readWrite g = true ->
  _outputPins g pins
  = let ps := u4 (Z.lor (Z.land (gpioBase g) (direction g))
                    (Z.land (Z.land pins (Z.lnot (direction g))) 15)) in
    set_gpioBase ps (set_pinState ps g).
Proof. intros H. unfold _outputPins. rewrite H. reflexivity. Qed.

Lemma outputPins_hidden (g : GBACartridgeGPIO) (pins : Z) :
  readWrite g = false -> _outputPins g pins = g.
Proof. intros H. unfold _outputPins. now rewrite H. Qed.

Lemma outputPins_word g pins :
  readWrite g = true -> gpioBase (_outputPins g pins) = pinState (_outputPins g pins).
Proof. intros Hv. rewrite outputPins_visible by exact Hv. reflexivity. Qed.

Lemma outputPins_pin3 g b :
  readWrite g = true -> Z.testbit (direction g) 3 = false ->
  Z.testbit (pinState (_outputPins g (Z.shiftl (b2z b) 3))) 3 = b.
Proof.
  intros Hv Hd. rewrite outputPins_visible by exact Hv. cbv zeta.
  cbn [pinState set_gpioBase set_pinState]. unfold u4.
  rewrite Z.land_spec, Z.lor_spec, !Z.land_spec, Z.lnot_spec, Hd by lia.
  rewrite Z.shiftl_spec by lia. change (3 - 3) with 0.
  change (Z.testbit 15 3) with true. rewrite b2z_testbit0.
  now rewrite andb_false_r, !andb_true_r.
Qed.

Lemma rtcProcessByte_frame h g :
  _rtcProcessByte h g = set_rtc (rtc (_rtcProcessByte h g)) g.
Proof.
  unfold _rtcProcessByte, _rtcUpdateClock.
  destruct g as [? ? ? ? ? r ? ? ? ? ? ? ? ?].
  repeat match goal with
         | |- context [if ?c then _ else _] => destruct c
         end; reflexivity.
Qed.

Lemma rtcProcessByte_pins h g : same_pins g (_rtcProcessByte h g).
Proof.
  unfold _rtcProcessByte, _rtcUpdateClock.
  repeat match goal with
         | |- context [if ?c then _ else _] => destruct c
         end; repeat split.
Qed.

Lemma rtcReadPins_devices h g : gpioDevices (_rtcReadPins h g) = gpioDevices g.
Proof.
  unfold _rtcReadPins.
  repeat match goal with
         | |- context [if ?c then _ else _] => destruct c
         end; try reflexivity.
  - rewrite rtcProcessByte_frame. reflexivity.
  - rewrite outputPins_frame. reflexivity.
  - rewrite outputPins_frame. reflexivity.
  - rewrite outputPins_frame. reflexivity.
Qed.

Lemma tiltWrite_pins h g address value :
  same_pins g (GBAGPIOTiltWrite h g address value).
Proof.
  unfold GBAGPIOTiltWrite.
  repeat match goal with
         | |- context [if ?c then _ else _] => destruct c
         | |- context [match ?c with Some _ => _ | None => _ end] => destruct c
         end; repeat split.
Qed.

Lemma readPins_rtc_only h g :
  gpioDevices g = GPIO_RTC -> _readPins h g = _rtcReadPins h g.
Proof.
  intros H. unfold _readPins. rewrite H.
  change (truthy (Z.land GPIO_RTC GPIO_RTC)) with true. cbv iota zeta.
  rewrite rtcReadPins_devices, H.
  change (truthy (Z.land GPIO_RTC GPIO_GYRO)) with false. cbv iota.
  rewrite rtcReadPins_devices, H. reflexivity.
Qed.

Lemma readPins_light_only h g :
  gpioDevices g = GPIO_LIGHT_SENSOR -> _readPins h g = _lightReadPins h g.
Proof.
  intros H. unfold _readPins. rewrite H.
  change (truthy (Z.land GPIO_LIGHT_SENSOR GPIO_RTC)) with false. cbv iota zeta.
  rewrite H.
  change (truthy (Z.land GPIO_LIGHT_SENSOR GPIO_GYRO)) with false. cbv iota.
  rewrite H. reflexivity.
Qed.

Lemma publish_visible g :
  readWrite g = true ->
  publish g
  = set_gpioBase (Z.lor (u16 (Z.land (gpioBase g) (Z.lnot (direction g)))) (pinState g)) g.
Proof. intros H. unfold publish. now rewrite H. Qed.

Lemma publish_hidden g : hidden (publish g).
Proof.
  unfold hidden, publish. destruct (readWrite g) eqn:E.
  - cbn. rewrite E. discriminate.
  - reflexivity.
Qed.

Lemma write_data h g v :
  GBAGPIOWrite h g GPIO_REG_DATA v = publish (_readPins h (write_data_pins g (u16 v))).
Proof. reflexivity. Qed.

(** ** The register interface *)

(** C2, at direction 1, pin state 0, value 3: the DATA write hands pin
    state 3 to the devices, with pin 1 (device-driven) taken from the
    written value, where the masked rule gives 1; and with direction 5,
    visibility on and no device, a DATA write of 0xF publishes 0xF, the
    device-driven pins 1 and 3 included. *)
Theorem data_write_unmasked :
  pinState (write_data_pins pin0_cpu_bus 3) = 3
  /\ masked_data_pins pin0_cpu_bus 3 = 1
  /\ pinState (GBAGPIOWrite bare_host pin0_cpu_bus GPIO_REG_DATA 3) = 3
  /\ observations [(bare_host, OpWrite GPIO_REG_DIRECTION 5);
                   (bare_host, OpWrite GPIO_REG_CONTROL 1);
                   (bare_host, OpWrite GPIO_REG_DATA 15)]
       (GBAGPIOInit zeroed 0)
     = [ObsWord 0; ObsWord 0; ObsWord 15].
Proof. repeat split. Qed.

(** C3 fails for CONTROL: writing 2 turns visibility on although bit 0
    of 2 is clear, and the bus then differs from the one that a write of
    2 & 1 = 0 leaves. *)
Lemma control_write_2_visible :
  readWrite (GBAGPIOWrite bare_host (GBAGPIOInit zeroed 0) GPIO_REG_CONTROL 2) = true
  /\ Z.testbit 2 0 = false
  /\ GBAGPIOWrite bare_host (GBAGPIOInit zeroed 0) GPIO_REG_CONTROL 2
     <> GBAGPIOWrite bare_host (GBAGPIOInit zeroed 0) GPIO_REG_CONTROL (Z.land 2 1).
Proof. repeat split. discriminate. Qed.

(** C3, amended: a CONTROL write of v sets [readWrite] to whether the
    16-bit value is non-zero, so writing v behaves as writing 1 when it
    is and as writing 0 when it is not; DATA and DIRECTION writes of v
    behave as writes of v & 0xF. *)
Theorem writes_use_meaningful_bits (h : Host) (g : GBACartridgeGPIO) (v : Z) :
  readWrite (GBAGPIOWrite h g GPIO_REG_CONTROL v) = truthy (u16 v)
  /\ step h (OpWrite GPIO_REG_CONTROL v) g
     = step h (OpWrite GPIO_REG_CONTROL (b2z (truthy (u16 v)))) g
  /\ step h (OpWrite GPIO_REG_DATA v) g
     = step h (OpWrite GPIO_REG_DATA (Z.land v 15)) g
  /\ step h (OpWrite GPIO_REG_DIRECTION v) g
     = step h (OpWrite GPIO_REG_DIRECTION (Z.land v 15)) g.
Proof.
  assert (Hd : write_data_pins g (u16 v) = write_data_pins g (u16 (Z.land v 15))).
  { unfold write_data_pins. cbn [pinState set_pinState].
    now rewrite u4_low_nibble. }
  split; [|split; [|split]].
  - unfold GBAGPIOWrite, publish. cbn [Z.eqb GPIO_REG_CONTROL GPIO_REG_DATA
      GPIO_REG_DIRECTION]. cbn [readWrite set_readWrite].
    destruct (truthy (u16 v)); reflexivity.
  - unfold step, GBAGPIOWrite.
    cbn [Z.eqb GPIO_REG_CONTROL GPIO_REG_DATA GPIO_REG_DIRECTION].
    destruct (truthy (u16 v)); reflexivity.
  - unfold step, GBAGPIOWrite.
    cbn [Z.eqb GPIO_REG_DATA]. now rewrite Hd.
  - unfold step, GBAGPIOWrite.
    cbn [Z.eqb GPIO_REG_CONTROL GPIO_REG_DATA GPIO_REG_DIRECTION].
    now rewrite u4_u16_low_nibble.
Qed.

(** ** Visibility *)

Lemma rtcReadPins_hidden h g :
  readWrite g = false -> same_pins g (_rtcReadPins h g).
Proof.
  intros H. unfold _rtcReadPins.
  rewrite (outputPins_hidden g _ H).
  repeat match goal with
         | |- context [if ?c then _ else _] => destruct c
         end; try (repeat split; fail).
  apply (rtcProcessByte_pins h
           (set_rtc (set_bitsRead (bitsRead (rtc g) + 1) (rtc g)) g)).
Qed.

Lemma gyroReadPins_hidden h g :
  readWrite g = false -> same_pins g (_gyroReadPins h g).
Proof.
  intros H. unfold _gyroReadPins.
  destruct (rotationSource h) as [gyro|]; [|apply same_pins_refl].
  destruct (p0 g).
  - cbn [gyroEdge set_gyro gyroSample].
    change (p1 (set_gyro ?s ?e g)) with (p1 g).
    destruct (gyroEdge g && negb (p1 g)).
    + rewrite outputPins_hidden by exact H. repeat split.
    + repeat split.
  - destruct (gyroEdge g && negb (p1 g)).
    + rewrite outputPins_hidden by exact H. repeat split.
    + repeat split.
Qed.

Lemma lightReadPins_hidden h g :
  readWrite g = false -> same_pins g (_lightReadPins h g).
Proof.
  intros H. unfold _lightReadPins.
  destruct (p2 g); [apply same_pins_refl|].
  rewrite outputPins_hidden.
  - destruct (p1 g), (luminanceSource h);
      repeat match goal with
             | |- context [if ?c then _ else _] => destruct c
             end; repeat split.
  - destruct (p1 g), (luminanceSource h);
      repeat match goal with
             | |- context [if ?c then _ else _] => destruct c
             end; exact H.
Qed.

(** C9: while [readWrite] is false the output helper is the identity, so
    the RTC's data-out bit, the gyroscope's shifted-out bit and the light
    sensor's pin-3 level reach neither the pin state nor the published
    word; the gyroscope still shifts its sample on a falling edge. *)
Theorem hidden_outputs_dropped (h : Host) (g : GBACartridgeGPIO) :
  readWrite g = false -> outputs_dropped h g.
Proof.
  intros H. unfold outputs_dropped.
  split; [intros; now apply outputPins_hidden|].
  split; [now apply rtcReadPins_hidden|].
  split; [now apply gyroReadPins_hidden|].
  split; [now apply lightReadPins_hidden|].
  intros gyro Hg He Hp. unfold _gyroReadPins, gyro_latched. rewrite Hg.
  destruct (p0 g).
  - cbn [gyroEdge set_gyro gyroSample].
    change (p1 (set_gyro ?s ?e g)) with (p1 g).
    rewrite He, Hp. cbn [andb negb].
    rewrite outputPins_hidden by exact H. reflexivity.
  - rewrite He, Hp. cbn [andb negb].
    rewrite outputPins_hidden by exact H. reflexivity.
Qed.

Lemma hidden_outputs_dropped_witness : outputs_dropped gyro_host hidden_falling.
Proof. apply (hidden_outputs_dropped gyro_host hidden_falling). reflexivity. Defined.

Lemma same_pins_hidden g g' : same_pins g g' -> hidden g -> hidden g'.
Proof.
  intros (_ & Hw & Hr) Hg H'. rewrite Hw. apply Hg. now rewrite <- Hr.
Qed.

Lemma step_hidden h op g : hidden g -> hidden (fst (step h op g)).
Proof.
  intros Hg. destruct op as [address value| |address value|address]; cbn [step fst].
  - apply publish_hidden.
  - exact Hg.
  - exact (same_pins_hidden g _ (tiltWrite_pins h g address value) Hg).
  - exact Hg.
Qed.

Lemma final_hidden ops : forall g, hidden g -> hidden (final ops g).
Proof.
  induction ops as [|[h op] ops IH]; intros g Hg.
  - exact Hg.
  - rewrite final_cons. apply IH. now apply step_hidden.
Qed.

(** C4: with [readWrite] false the published word is 0 after every
    register write, whatever the address, the value and the devices do,
    and stays 0 through every later operation; and a device's output
    proposal, made between two publish steps, leaves it 0: after the
    output helper and after each device's handler the word is still 0
    while [readWrite] is false. *)
Theorem hidden_word_is_zero (h : Host) (g : GBACartridgeGPIO) : word_hidden h g.
Proof.
  split; [|split].
  - intros address value. unfold GBAGPIOWrite. apply publish_hidden.
  - intros address value ops. apply final_hidden.
    unfold GBAGPIOWrite. apply publish_hidden.
  - intros Hg. repeat split.
    + intros pins H'. unfold _outputPins in *.
      destruct (readWrite g) eqn:E; [cbn in H'; congruence| now apply Hg].
    + intros H'. destruct (readWrite g) eqn:E.
      * unfold _rtcReadPins in H'.
        exfalso. revert H'. unfold _outputPins. rewrite E.
        repeat match goal with
               | |- context [if ?c then _ else _] => destruct c
               end; cbn; try congruence;
        match goal with
        | |- context [_rtcProcessByte ?h ?g] =>
            destruct (rtcProcessByte_pins h g) as (_ & _ & ->)
        end; cbn; congruence.
      * exact (same_pins_hidden g _ (rtcReadPins_hidden h g E) Hg H').
    + intros H'. destruct (readWrite g) eqn:E.
      * exfalso. revert H'. unfold _gyroReadPins, _outputPins.
        destruct (rotationSource h); [|congruence].
        repeat match goal with
               | |- context [if ?c then _ else _] => destruct c eqn:?
               end; cbn in *; congruence.
      * exact (same_pins_hidden g _ (gyroReadPins_hidden h g E) Hg H').
    + intros H'. destruct (readWrite g) eqn:E.
      * exfalso. revert H'. unfold _lightReadPins, _outputPins.
        destruct (luminanceSource h);
        repeat match goal with
               | |- context [if ?c then _ else _] => destruct c eqn:?
               end; cbn in *; congruence.
      * exact (same_pins_hidden g _ (lightReadPins_hidden h g E) Hg H').
Qed.

Lemma hidden_word_is_zero_witness :
  hidden hidden_light_bus /\ word_hidden light_host hidden_light_bus.
Proof.
  split.
  - intros _. reflexivity.
  - apply (hidden_word_is_zero light_host hidden_light_bus).
Defined.

(** ** The clock: abort *)

(** C7: in transfer step 2, pin 0 high with pin 2 low aborts the
    transfer: [bitsRead], [bytesRemaining], [commandActive] and the
    command's reading bit are reset and the transfer step returns to 0;
    nothing else changes. *)
Theorem rtc_abort (h : Host) (g : GBACartridgeGPIO) :
  transferStep (rtc g) = 2 -> p0 g = true -> p2 g = false ->
  let g' := _rtcReadPins h g in
  bitsRead (rtc g') = 0
  /\ bytesRemaining (rtc g') = 0
  /\ commandActive (rtc g') = false
  /\ reading (command (rtc g')) = false
  /\ transferStep (rtc g') = 0
  /\ g' = set_rtc (mkRTC 0 0 0 (bits (rtc g)) false
                     (clear_reading (command (rtc g)))
                     (control (rtc g)) (time (rtc g))) g.
Proof.
  intros Hs H0 H2. unfold _rtcReadPins. rewrite Hs, H0, H2. cbn.
  rewrite reading_clear. repeat split.
Qed.

Lemma rtc_abort_witness :
  let g' := _rtcReadPins bare_host rtc_mid_transfer in
  bitsRead (rtc g') = 0
  /\ bytesRemaining (rtc g') = 0
  /\ commandActive (rtc g') = false
  /\ reading (command (rtc g')) = false
  /\ transferStep (rtc g') = 0
  /\ g' = set_rtc (mkRTC 0 0 0 13 false 108 64 [4; 3; 21; 1; 19; 55; 66])
            rtc_mid_transfer.
Proof.
  apply (rtc_abort bare_host rtc_mid_transfer); reflexivity.
Defined.

(** ** The clock: reading the time *)

(** The clock's handler in its byte-transfer step, case by case. *)
Lemma rtc_falling h g :
  transferStep (rtc g) = 2 -> p0 g = false ->
  _rtcReadPins h g
  = set_rtc (set_bits
      (u8 (Z.lor (u8 (Z.land (bits (rtc g)) (Z.lnot (Z.shiftl 1 (bitsRead (rtc g))))))
                 (Z.shiftl (b2z (p1 g)) (bitsRead (rtc g)))))
      (rtc g)) g.
Proof.
  intros Hs H0. unfold _rtcReadPins. rewrite Hs, H0.
  destruct g as [? ? ? ? ? r ? ? ? ? ? ? ? ?]. destruct r. reflexivity.
Qed.

Lemma rtc_rising_read h g :
  transferStep (rtc g) = 2 -> p0 g = true -> p2 g = true -> dir1 g = false ->
  _rtcReadPins h g
  = let g1 := _outputPins g (Z.lor 5 (Z.shiftl (_rtcOutput g) 1)) in
    let r := set_bitsRead (bitsRead (rtc g) + 1) (rtc g) in
    set_rtc (if bitsRead r =? 8 then byte_sent r else r) g1.
Proof.
  intros Hs H0 H2 Hd. unfold _rtcReadPins. rewrite Hs, H0, H2, Hd.
  change (2 =? 0) with false. change (2 =? 1) with false.
  change (2 =? 2) with true. cbv iota. cbn [negb]. cbv zeta.
  rewrite outputPins_frame.
  set (w := gpioBase _). set (ps := pinState _).
  destruct g as [? ? ? ? ? r ? ? ? ? ? ? ? ?]. destruct r.
  cbn [set_rtc set_gpioBase set_pinState rtc bitsRead set_bitsRead
       gpioDevices readWrite gpioBase pinState direction gyroSample gyroEdge
       lightCounter lightSample lightEdge tiltX tiltY tiltState
       bytesRemaining transferStep bits commandActive command control time].
  destruct (_ =? 8); [|reflexivity].
  unfold byte_sent.
  cbn [set_rtc set_gpioBase set_pinState rtc bitsRead set_bitsRead
       set_bytesRemaining set_commandActive set_command
       gpioDevices readWrite gpioBase pinState direction gyroSample gyroEdge
       lightCounter lightSample lightEdge tiltX tiltY tiltState
       bytesRemaining transferStep bits commandActive command control time].
  destruct (_ <=? 0); reflexivity.
Qed.

Lemma rtc_rising_write h g :
  transferStep (rtc g) = 2 -> p0 g = true -> p2 g = true -> dir1 g = true ->
  _rtcReadPins h g
  = let g1 := set_rtc (set_bitsRead (bitsRead (rtc g) + 1) (rtc g)) g in
    if bitsRead (rtc g1) =? 8 then _rtcProcessByte h g1 else g1.
Proof.
  intros Hs H0 H2 Hd. unfold _rtcReadPins. rewrite Hs, H0, H2, Hd. reflexivity.
Qed.

Lemma rtcOutput_time g :
  command_index (command (rtc g)) = RTC_TIME -> 0 <= bitsRead (rtc g) ->
  _rtcOutput g
  = b2z (Z.testbit (time_at (time (rtc g)) (7 - bytesRemaining (rtc g)))
           (bitsRead (rtc g))).
Proof.
  intros Hc Hk. unfold _rtcOutput. rewrite Hc. cbn [Z.eqb RTC_TIME RTC_CONTROL
    RTC_DATETIME Pos.eqb orb]. cbv zeta.
  set (byte := time_at _ _). set (k := bitsRead _) in *.
  rewrite land_1_testbit, Z.shiftr_spec by lia. reflexivity.
Qed.

Lemma clock_low_transfer h c t r k g :
  rtc_transfer c t r k g -> rtc_transfer c t r k (clock_low h g).
Proof.
  intros [Hd Hdir Hv Hs Hc Ha Hr Hk Ht].
  unfold clock_low. rewrite write_data, readPins_rtc_only by exact Hd.
  rewrite rtc_falling.
  - rewrite publish_visible by exact Hv. constructor; assumption.
  - exact Hs.
  - unfold p0. rewrite write_data_pins_testbit by lia. rewrite Hdir.
    change (negb (Z.testbit 5 0)) with false. now rewrite andb_false_r.
Qed.

Lemma clock_high_read h c t r k g :
  rtc_transfer c t r k g ->
  let g' := clock_high h g in
  let r' := set_bitsRead (k + 1) (rtc g) in
  data_out g' = Z.testbit (_rtcOutput g) 0
  /\ rtc g' = (if k + 1 =? 8 then byte_sent r' else r')
  /\ gpioDevices g' = GPIO_RTC /\ direction g' = 5 /\ readWrite g' = true.
Proof.
  intros [Hd Hdir Hv Hs Hc Ha Hr Hk Ht]. cbv zeta.
  unfold clock_high. rewrite write_data, readPins_rtc_only by exact Hd.
  set (g1 := write_data_pins g (u16 5)).
  assert (H0 : p0 g1 = true).
  { unfold p0, g1. rewrite write_data_pins_testbit by lia.
    change (Z.testbit (u16 5) 0) with true. apply orb_true_r. }
  assert (H2 : p2 g1 = true).
  { unfold p2, g1. rewrite write_data_pins_testbit by lia.
    change (Z.testbit (u16 5) 2) with true. apply orb_true_r. }
  assert (H1 : dir1 g1 = false).
  { unfold dir1. change (direction g1) with (direction g). now rewrite Hdir. }
  rewrite rtc_rising_read by assumption. cbv zeta.
  change (rtc g1) with (rtc g). change (_rtcOutput g1) with (_rtcOutput g).
  rewrite outputPins_visible by exact Hv. cbv zeta.
  change (direction g1) with (direction g). change (gpioBase g1) with (gpioBase g).
  rewrite Hdir.
  set (ps := u4 _).
  set (r' := if bitsRead _ =? 8 then _ else _).
  rewrite publish_visible by exact Hv.
  cbn [set_rtc set_gpioBase set_pinState rtc gpioDevices readWrite gpioBase
       pinState direction].
  change (gpioDevices g1) with (gpioDevices g).
  change (readWrite g1) with (readWrite g).
  change (direction g1) with (direction g).
  repeat split; try assumption.
  - unfold data_out. cbn [gpioBase set_gpioBase]. rewrite Z.lor_spec. unfold u16.
    rewrite !Z.land_spec, Hdir.
    change (Z.testbit (Z.lnot 5) 1) with true.
    change (Z.testbit 65535 1) with true. rewrite !andb_true_r, orb_diag.
    unfold ps, u4. rewrite Z.land_spec, Z.lor_spec, !Z.land_spec, Z.lor_spec.
    change (Z.testbit 5 1) with false.
    change (Z.testbit (Z.lnot 5) 1) with true.
    change (Z.testbit 15 1) with true.
    rewrite Z.shiftl_spec by lia. change (1 - 1) with 0.
    now rewrite !andb_true_r, andb_false_r.
  - unfold r'. cbn [bitsRead set_bitsRead]. rewrite Hk. reflexivity.
Qed.

Lemma time_pulse h t r k g :
  rtc_transfer RTC_TIME t r k g -> 1 <= r <= 255 -> 0 <= k <= 7 ->
  data_out (pulse h g) = Z.testbit (time_at t (7 - r)) k
  /\ (k < 7 -> rtc_transfer RTC_TIME t r (k + 1) (pulse h g))
  /\ (k = 7 -> 1 < r -> rtc_transfer RTC_TIME t (r - 1) 0 (pulse h g))
  /\ (k = 7 -> r = 1 -> commandActive (rtc (pulse h g)) = false).
Proof.
  intros H Hr Hk. unfold pulse.
  pose proof (clock_low_transfer h _ _ _ _ _ H) as H'.
  destruct (clock_high_read h _ _ _ _ _ H') as (Ho & Hrtc & Hd & Hdir & Hv).
  destruct H' as [_ _ _ Hs Hc Ha Hb Hbits Ht].
  split; [|split; [|split]].
  - rewrite Ho. rewrite rtcOutput_time; [|exact Hc|rewrite Hbits; lia].
    rewrite Hb, Hbits, Ht. apply b2z_testbit0.
  - intros Hlt. constructor; try assumption; rewrite Hrtc;
      (replace (k + 1 =? 8) with false by (symmetry; apply Z.eqb_neq; lia));
      assumption || reflexivity.
  - intros -> Hgt. change (7 + 1 =? 8) with true in Hrtc.
    unfold byte_sent in Hrtc. cbn [bytesRemaining set_bitsRead set_bytesRemaining] in Hrtc.
    rewrite Hb, u8_small in Hrtc by lia.
    replace (r - 1 <=? 0) with false in Hrtc by (symmetry; apply Z.leb_gt; lia).
    constructor; try assumption; rewrite Hrtc; assumption || reflexivity.
  - intros -> ->. change (7 + 1 =? 8) with true in Hrtc.
    rewrite Hrtc. unfold byte_sent.
    cbn [bytesRemaining set_bitsRead set_bytesRemaining]. rewrite Hb. reflexivity.
Qed.

Lemma time_bits_from h t r (Hr : 1 <= r <= 255) :
  forall n k g,
    0 <= k <= 7 -> k + Z.of_nat n <= 8 -> rtc_transfer RTC_TIME t r k g ->
    emitted n h g
    = map (fun i => Z.testbit (time_at t (7 - r)) (k + Z.of_nat i)) (seq 0 n)
    /\ (k + Z.of_nat n < 8 ->
        rtc_transfer RTC_TIME t r (k + Z.of_nat n) (pulses n h g))
    /\ (k + Z.of_nat n = 8 ->
        (1 < r -> rtc_transfer RTC_TIME t (r - 1) 0 (pulses n h g))
        /\ (r = 1 -> commandActive (rtc (pulses n h g)) = false)).
Proof.
  induction n as [|n IH]; intros k g Hk Hn H.
  - cbn [readings rounds seq map]. rewrite Z.add_0_r.
    split; [reflexivity|]. split; [intros _; exact H | lia].
  - destruct (time_pulse h t r k g H Hr Hk) as (Ho & Hlt & Hnext & Hend).
    rewrite readings_S, rounds_S.
    cbn [seq map]. rewrite <- seq_shift, map_map.
    change (Z.of_nat 0) with 0. rewrite Z.add_0_r, Ho.
    destruct (Z.eq_dec k 7) as [->|Hne].
    + assert (n = O) by lia. subst n. cbn [readings rounds seq map].
      split; [reflexivity|]. split; [lia|]. intros _. split; auto.
    + assert (Hk' : 0 <= k + 1 <= 7) by lia.
      assert (Hn' : k + 1 + Z.of_nat n <= 8) by lia.
      destruct (IH (k + 1) (pulse h g) Hk' Hn' (Hlt ltac:(lia))) as (He & Hl & Hf).
      rewrite He.
      replace (k + Z.of_nat (S n)) with (k + 1 + Z.of_nat n) by lia.
      split; [|split; assumption].
      f_equal. apply map_ext. intros i. f_equal. lia.
Qed.

Lemma time_byte h t r g :
  1 <= r <= 255 -> rtc_transfer RTC_TIME t r 0 g ->
  emitted 8 h g = bits_of (time_at t (7 - r))
  /\ (1 < r -> rtc_transfer RTC_TIME t (r - 1) 0 (pulses 8 h g))
  /\ (r = 1 -> commandActive (rtc (pulses 8 h g)) = false).
Proof.
  intros Hr H.
  destruct (time_bits_from h t r Hr 8 0 g ltac:(lia) ltac:(cbn; lia) H)
    as (He & _ & Hf).
  split; [rewrite He; reflexivity|]. apply Hf. reflexivity.
Qed.

(** C5: with the TIME command active, each bit the clock proposes is bit
    [bitsRead] of [time[7 - bytesRemaining]]; and over the command's
    three payload bytes the CPU reads, pulse by pulse in the published
    word, the bits of [time[4]], [time[5]] and [time[6]], each byte from
    bit 0 up, after which the command is no longer active. *)
Theorem rtc_time_output (h : Host) (g : GBACartridgeGPIO) (t : list Z) :
  (command_index (command (rtc g)) = RTC_TIME -> 0 <= bitsRead (rtc g) ->
   _rtcOutput g
   = b2z (Z.testbit (time_at (time (rtc g)) (7 - bytesRemaining (rtc g)))
            (bitsRead (rtc g))))
  /\ (rtc_transfer RTC_TIME t 3 0 g -> time_read h g t).
Proof.
  split; [apply rtcOutput_time|].
  intros H. unfold time_read.
  destruct (time_byte h t 3 g ltac:(lia) H) as (E1 & H1 & _).
  specialize (H1 ltac:(lia)). change (3 - 1) with 2 in H1.
  destruct (time_byte h t 2 _ ltac:(lia) H1) as (E2 & H2 & _).
  specialize (H2 ltac:(lia)). change (2 - 1) with 1 in H2.
  destruct (time_byte h t 1 _ ltac:(lia) H2) as (E3 & _ & H3).
  specialize (H3 eq_refl).
  replace 24%nat with (8 + (8 + 8))%nat by reflexivity.
  rewrite !readings_add, !rounds_add.
  rewrite E1, E2, E3. split; [reflexivity|exact H3].
Qed.

Lemma rtc_time_output_witness :
  time_read bare_host rtc_time_bus [4; 3; 21; 1; 19; 55; 66].
Proof.
  apply (rtc_time_output bare_host rtc_time_bus [4; 3; 21; 1; 19; 55; 66]).
  constructor; reflexivity.
Defined.

(** ** The clock: command framing *)

Lemma processByte_header h g :
  commandActive (rtc g) = false -> magic (u8 (bits (rtc g))) = 6 ->
  let n := nth (Z.to_nat (command_index (u8 (bits (rtc g))))) RTC_BYTES 0 in
  let r' := rtc (_rtcProcessByte h g) in
  bytesRemaining r' = n
  /\ commandActive r' = (0 <? n)
  /\ bitsRead r' = 0
  /\ transferStep r' = transferStep (rtc g)
  /\ (n = 0 \/ 1 <= n <= 255).
Proof.
  intros Ha Hm. cbv zeta. unfold _rtcProcessByte.
  cbn [rtc set_rtc commandActive set_bytesRemaining bits]. rewrite Ha. cbn [negb].
  rewrite Hm. change (6 =? 6) with true. cbv iota.
  cbn [rtc set_rtc command set_command set_bytesRemaining bytesRemaining].
  pose proof (command_index_range (u8 (bits (rtc g)))) as Hi.
  set (i := command_index (u8 (bits (rtc g)))) in *.
  assert (i = 0 \/ i = 1 \/ i = 2 \/ i = 3 \/ i = 4 \/ i = 5 \/ i = 6 \/ i = 7)
    as [->|[->|[->|[->|[->|[->|[->| ->]]]]]]] by lia;
    repeat split; try reflexivity;
    (left; reflexivity) || (right; split; apply Z.leb_le; reflexivity).
Qed.

Lemma processByte_payload h g :
  commandActive (rtc g) = true ->
  let r' := rtc (_rtcProcessByte h g) in
  bytesRemaining r' = u8 (bytesRemaining (rtc g) - 1)
  /\ bitsRead r' = 0
  /\ transferStep r' = transferStep (rtc g)
  /\ commandActive r' = negb (u8 (bytesRemaining (rtc g) - 1) =? 0).
Proof.
  intros Ha. cbv zeta. unfold _rtcProcessByte.
  cbn [rtc set_rtc commandActive set_bytesRemaining bits]. rewrite Ha. cbn [negb].
  cbn [rtc set_rtc command set_command set_bytesRemaining bytesRemaining].
  destruct (command_index (command (rtc g)) =? RTC_CONTROL);
    cbn [rtc set_rtc bytesRemaining set_bytesRemaining set_bits set_bitsRead
         set_control set_command set_commandActive transferStep bitsRead bits
         commandActive command control time];
    destruct (u8 (bytesRemaining (rtc g) - 1) =? 0);
    repeat split; reflexivity || exact Ha.
Qed.

Ltac rtc_fields :=
  cbn [rtc set_rtc bytesRemaining transferStep bitsRead bits commandActive
       command control time set_bytesRemaining set_transferStep set_bitsRead
       set_bits set_commandActive set_command set_control set_time].

Lemma rtc_step_payload h g r m :
  in_payload m r -> abort g = false ->
  (exchange g = false -> in_payload m (rtc_step h g r))
  /\ (exchange g = true -> 1 < m -> in_payload (m - 1) (rtc_step h g r))
  /\ (exchange g = true -> m = 1 -> idle (rtc_step h g r)).
Proof.
  intros [Hs Ha Hb Hr Hm] Hab. unfold rtc_step, exchange, abort in *.
  set (g0 := set_rtc r g).
  assert (Hs0 : transferStep (rtc g0) = 2) by exact Hs.
  change (p0 g) with (p0 g0) in *. change (p2 g) with (p2 g0) in *.
  destruct (p0 g0) eqn:E0; cbn [andb] in *.
  - destruct (p2 g0) eqn:E2; [clear Hab|discriminate].
    split; [discriminate|].
    destruct (dir1 g0) eqn:Ed.
    + rewrite rtc_rising_write by assumption. cbv zeta.
      change (rtc g0) with r.
      set (g1 := set_rtc (set_bitsRead (bitsRead r + 1) r) g0).
      change (bitsRead (rtc g1)) with (bitsRead r + 1).
      destruct (Z.eqb_spec (bitsRead r + 1) 8) as [E8|E8].
      * destruct (processByte_payload h g1 Ha) as (Hb' & Hk' & Hs' & Ha').
        change (bytesRemaining (rtc g1)) with (bytesRemaining r) in *.
        change (transferStep (rtc g1)) with (transferStep r) in *.
        rewrite u8_small in Hb', Ha' by lia.
        split; intros _ Hm'.
        -- constructor; rewrite ?Hb', ?Hk', ?Hs', ?Ha'; try lia;
             apply negb_true_iff, Z.eqb_neq; lia.
        -- constructor; rewrite ?Hs', ?Ha'; try lia;
             apply negb_false_iff, Z.eqb_eq; lia.
      * split; intros _ Hm'; [|lia].
        unfold g1. constructor; rtc_fields; try assumption; lia.
    + rewrite rtc_rising_read by assumption. cbv zeta.
      cbn [rtc set_rtc bitsRead set_bitsRead].
      change (rtc g0) with r.
      destruct (Z.eqb_spec (bitsRead r + 1) 8) as [E8|E8].
      * unfold byte_sent. cbn [bytesRemaining set_bitsRead set_bytesRemaining].
        rewrite u8_small by lia.
        split; intros _ Hm'.
        -- replace (bytesRemaining r - 1 <=? 0) with false
             by (symmetry; apply Z.leb_gt; lia).
           constructor; rtc_fields; try assumption; lia.
        -- replace (bytesRemaining r - 1 <=? 0) with true
             by (symmetry; apply Z.leb_le; lia).
           constructor; rtc_fields; [assumption|reflexivity].
      * split; intros _ Hm'; [|lia].
        constructor; rtc_fields; try assumption; lia.
  - rewrite rtc_falling by assumption.
    split; [intros _; constructor; rtc_fields; assumption|].
    split; discriminate.
Qed.

Lemma rtc_step_idle h g r :
  idle r -> exchange g = false -> abort g = false -> idle (rtc_step h g r).
Proof.
  intros [Hs Ha] He Hab. unfold rtc_step, exchange, abort in *.
  set (g0 := set_rtc r g).
  change (p0 g) with (p0 g0) in *. change (p2 g) with (p2 g0) in *.
  destruct (p0 g0) eqn:E0; cbn [andb] in *.
  - destruct (p2 g0); discriminate.
  - rewrite rtc_falling by assumption. constructor; rtc_fields; assumption.
Qed.

Lemma exchanges_nonneg evs : 0 <= exchanges evs.
Proof.
  induction evs as [|[h g] evs IH]; cbn [exchanges]; [lia|].
  destruct (exchange g); cbn [b2z]; lia.
Qed.

Lemma rtc_run_idle evs :
  forall r, idle r -> no_abort evs -> exchanges evs <= 0 ->
            commandActive (rtc_run evs r) = false.
Proof.
  induction evs as [|[h g] evs IH]; intros r Hr Hn He.
  - apply Hr.
  - cbn [rtc_run]. unfold no_abort in Hn. cbn [forallb snd] in Hn.
    apply andb_true_iff in Hn as [Hab Hn]. apply negb_true_iff in Hab.
    cbn [exchanges] in He. pose proof (exchanges_nonneg evs).
    destruct (exchange g) eqn:Ex; cbn [b2z] in He; [lia|].
    apply IH; [now apply rtc_step_idle | exact Hn | lia].
Qed.

Lemma rtc_run_payload evs :
  forall r m, in_payload m r -> no_abort evs -> exchanges evs <= m ->
              commandActive (rtc_run evs r) = (exchanges evs <? m).
Proof.
  induction evs as [|[h g] evs IH]; intros r m Hr Hn He.
  - cbn [rtc_run exchanges]. rewrite (ip_active m r Hr).
    symmetry. apply Z.ltb_lt. destruct Hr. lia.
  - cbn [rtc_run]. unfold no_abort in Hn. cbn [forallb snd] in Hn.
    apply andb_true_iff in Hn as [Hab Hn]. apply negb_true_iff in Hab.
    cbn [exchanges] in *. pose proof (exchanges_nonneg evs).
    destruct (rtc_step_payload h g r m Hr Hab) as (H0 & H1 & H2).
    destruct (exchange g) eqn:Ex; cbn [b2z] in *.
    + destruct (Z.eq_dec m 1) as [->|Hm].
      * rewrite (rtc_run_idle evs _ (H2 eq_refl eq_refl) Hn) by lia.
        symmetry. apply Z.ltb_ge. lia.
      * assert (1 < m) by (destruct Hr; lia).
        rewrite (IH _ (m - 1) (H1 eq_refl ltac:(lia)) Hn) by lia.
        destruct (Z.ltb_spec (exchanges evs) (m - 1)),
                 (Z.ltb_spec (1 + exchanges evs) m); lia || reflexivity.
    + rewrite (IH _ m (H0 eq_refl) Hn) by lia. reflexivity.
Qed.

(** C6: a command byte with magic 6 and index [i], processed in the
    byte-transfer step while no command is active, sets [bytesRemaining]
    to [RTC_BYTES[i]] and [commandActive] to whether that is non-zero;
    and over any later calls of the clock's handler without an abort,
    the command is active as long as fewer than [8 * RTC_BYTES[i]] bits
    have been exchanged and inactive once that many have: it ends with
    the last bit of the [RTC_BYTES[i]]-th byte, whichever way each bit
    went. *)
Theorem rtc_command_framing (h : Host) (g : GBACartridgeGPIO)
    (evs : list (Host * GBACartridgeGPIO)) :
  transferStep (rtc g) = 2 -> commandActive (rtc g) = false ->
  magic (u8 (bits (rtc g))) = 6 ->
  framed h g evs.
Proof.
  intros Hs Ha Hm. unfold framed. cbv zeta.
  destruct (processByte_header h g Ha Hm) as (Hb & Hc & Hk & Hs' & Hn).
  set (n := nth _ RTC_BYTES 0) in *. set (r' := rtc (_rtcProcessByte h g)) in *.
  split; [exact Hb|]. split; [exact Hc|].
  intros Hna He. destruct Hn as [Hn|Hn].
  - rewrite Hn in *. rewrite rtc_run_idle; [| |exact Hna|lia].
    + symmetry. apply Z.ltb_ge. pose proof (exchanges_nonneg evs). lia.
    + constructor; [congruence|]. rewrite Hc. reflexivity.
  - apply rtc_run_payload; [|exact Hna|exact He].
    constructor; try lia; try congruence.
    rewrite Hc. apply Z.ltb_lt. lia.
Qed.

Lemma rtc_command_framing_witness : framed bare_host rtc_header_bus three_bytes.
Proof.
  apply (rtc_command_framing bare_host rtc_header_bus three_bytes); reflexivity.
Defined.

(** The same run by evaluation: active after 23 bits, over after 24. *)
Example three_bytes_run :
  let r := rtc (_rtcProcessByte bare_host rtc_header_bus) in
  bytesRemaining r = 3
  /\ commandActive (rtc_run (repeat (bare_host, rtc_header_bus) 23) r) = true
  /\ commandActive (rtc_run three_bytes r) = false.
Proof. repeat split. Qed.

(** ** The light sensor *)

Lemma lightReadPins_low h g :
  p2 g = false ->
  _lightReadPins h g
  = _outputPins (light_next h g) (Z.shiftl (b2z (light_reached (light_next h g))) 3).
Proof.
  intros H2. unfold _lightReadPins, light_next, light_reached,
    light_counter_next, light_sample_next, latched_sample. rewrite H2.
  destruct g as [? ? ? ps ? ? ? ? ? ? e ? ? ?].
  cbv [p0 p1 pinState lightEdge lightCounter lightSample set_light
    gpioDevices readWrite gpioBase direction rtc gyroSample gyroEdge tiltX tiltY
    tiltState].
  destruct (Z.testbit ps 1) eqn:E1, (luminanceSource h),
    (Z.testbit ps 0) eqn:E0, e;
    cbv [andb negb pinState lightEdge lightCounter lightSample];
    rewrite ?E0, ?E1; reflexivity.
Qed.

(** The light sensor's update seen from the CPU, for a DATA write that
    keeps pin 2 low. *)
Lemma light_write h g v :
  light_only g -> 0 <= v < 4 ->
  let g1 := write_data_pins g (u16 v) in
  let g' := GBAGPIOWrite h g GPIO_REG_DATA v in
  light_only g'
  /\ lightCounter g' = light_counter_next g1
  /\ lightSample g' = light_sample_next h g1
  /\ lightEdge g' = negb (p0 g1)
  /\ pin3_out g' = light_reached g'.
Proof.
  intros [Hd Hdir Hv] Hr. cbv zeta.
  rewrite write_data, readPins_light_only by exact Hd.
  set (g1 := write_data_pins g (u16 v)).
  assert (Ev : u16 v = v).
  { unfold u16. change 65535 with (Z.ones 16). rewrite Z.land_ones by lia.
    apply Z.mod_small. change (2 ^ 16) with 65536. lia. }
  assert (H2 : p2 g1 = false).
  { unfold p2, g1. rewrite write_data_pins_testbit, Hdir, Ev by lia.
    change (negb (Z.testbit 7 2)) with false. rewrite andb_false_r. cbn [orb].
    assert (v = 0 \/ v = 1 \/ v = 2 \/ v = 3) as [->|[->|[->| ->]]] by lia;
      reflexivity. }
  rewrite lightReadPins_low by exact H2.
  set (gm := light_next h g1).
  assert (Hvm : readWrite gm = true) by exact Hv.
  assert (Hdm : direction gm = 7) by exact Hdir.
  rewrite publish_visible by (rewrite outputPins_frame; exact Hvm).
  set (go := _outputPins gm _).
  assert (Hgo : go = set_gpioBase (gpioBase go) (set_pinState (pinState go) gm))
    by apply outputPins_frame.
  assert (Hp3 : Z.testbit (pinState go) 3 = light_reached gm).
  { apply outputPins_pin3; [exact Hvm | now rewrite Hdm]. }
  assert (Hw : gpioBase go = pinState go) by (apply outputPins_word; exact Hvm).
  rewrite Hgo.
  cbn [set_gpioBase set_pinState gpioDevices readWrite gpioBase pinState direction
       rtc gyroSample gyroEdge lightCounter lightSample lightEdge].
  split; [constructor; assumption|].
  repeat split.
  unfold pin3_out. cbn [gpioBase set_gpioBase].
  change (light_reached _) with (light_reached gm).
  rewrite Z.lor_spec. unfold u16. rewrite !Z.land_spec, Hw, Hp3.
  destruct (light_reached gm); [apply orb_true_r | reflexivity].
Qed.

Lemma light_pins (g : GBACartridgeGPIO) (v : Z) :
  direction g = 7 -> 0 <= v < 4 ->
  p0 (write_data_pins g (u16 v)) = Z.testbit v 0
  /\ p1 (write_data_pins g (u16 v)) = Z.testbit v 1.
Proof.
  intros Hdir Hv.
  assert (Ev : u16 v = v).
  { unfold u16. change 65535 with (Z.ones 16). rewrite Z.land_ones by lia.
    apply Z.mod_small. change (2 ^ 16) with 65536. lia. }
  unfold p0, p1. rewrite !write_data_pins_testbit, Hdir, Ev by lia.
  change (negb (Z.testbit 7 0)) with false.
  change (negb (Z.testbit 7 1)) with false.
  now rewrite !andb_false_r.
Qed.

Lemma light_reset_counting h g :
  light_only g -> light_counting (latched_sample h) 0 (light_reset h g).
Proof.
  intros Hg. unfold light_reset.
  destruct (light_write h g 2 Hg ltac:(lia)) as (Hg' & Hc & Hsm & _ & Hp).
  destruct (light_pins g 2 (lo_direction g Hg) ltac:(lia)) as (E0 & E1).
  unfold light_counter_next in Hc. unfold light_sample_next in Hsm.
  rewrite E0, E1 in Hc. rewrite E1 in Hsm.
  change (Z.testbit 2 1) with true in *. change (Z.testbit 2 0) with false in *.
  cbn [andb] in Hc.
  constructor; try assumption.
  rewrite Hp. unfold light_reached. now rewrite Hc, Hsm.
Qed.

Lemma light_tick_counting h g s c :
  light_counting s c g -> 0 <= c < 255 -> light_counting s (c + 1) (light_tick h g).
Proof.
  intros [Hg Hc Hs _] Hr. unfold light_tick.
  destruct (light_write h g 0 Hg ltac:(lia)) as (Hg1 & Hc1 & Hs1 & He1 & _).
  destruct (light_pins g 0 (lo_direction g Hg) ltac:(lia)) as (E0 & E1).
  unfold light_counter_next in Hc1. unfold light_sample_next in Hs1.
  rewrite E0, E1 in Hc1. rewrite E1 in Hs1. rewrite E0 in He1.
  change (Z.testbit 0 1) with false in *. change (Z.testbit 0 0) with false in *.
  cbn [andb negb] in Hc1, He1.
  set (g1 := GBAGPIOWrite h g GPIO_REG_DATA 0) in *.
  destruct (light_write h g1 1 Hg1 ltac:(lia)) as (Hg2 & Hc2 & Hs2 & _ & Hp2).
  destruct (light_pins g1 1 (lo_direction g1 Hg1) ltac:(lia)) as (F0 & F1).
  unfold light_counter_next in Hc2. unfold light_sample_next in Hs2.
  rewrite F0, F1 in Hc2. rewrite F1 in Hs2.
  change (Z.testbit 1 1) with false in *. change (Z.testbit 1 0) with true in *.
  change (lightEdge (write_data_pins g1 (u16 1))) with (lightEdge g1) in Hc2.
  change (lightCounter (write_data_pins g1 (u16 1))) with (lightCounter g1) in Hc2.
  change (lightSample (write_data_pins g1 (u16 1))) with (lightSample g1) in Hs2.
  change (lightCounter (write_data_pins g (u16 0))) with (lightCounter g) in Hc1.
  change (lightSample (write_data_pins g (u16 0))) with (lightSample g) in Hs1.
  rewrite He1, Hc1, Hc in Hc2. cbn [andb] in Hc2.
  rewrite u8_small in Hc2 by lia. rewrite Hs1, Hs in Hs2.
  constructor; try assumption.
  rewrite Hp2. unfold light_reached. now rewrite Hc2, Hs2.
Qed.

Lemma light_ticks_counting h s :
  forall n c g,
    light_counting s c g -> 0 <= c -> c + Z.of_nat n <= 255 ->
    light_counting s (c + Z.of_nat n) (rounds (light_tick h) n g).
Proof.
  induction n as [|n IH]; intros c g Hg Hc Hn.
  - cbn [rounds]. now rewrite Z.add_0_r.
  - rewrite rounds_S.
    replace (c + Z.of_nat (S n)) with (c + 1 + Z.of_nat n) by lia.
    apply IH; [|lia|lia]. apply light_tick_counting; [exact Hg|lia].
Qed.

(** C8: on an update with pin 2 low the light sensor, once reset and
    edge are handled, proposes pin 3 high when the counter has reached
    the sample and low otherwise, which is the level pin 3 takes when the
    bus is visible and pin 3 is device-driven; and after a reset that
    latches sample [s] (the luminance read, or 0xFF without a source),
    the CPU reads pin 3 high after [n] clock ticks exactly when [s <= n],
    the counter standing at [n]: pin 3 first goes high on tick number
    [s]. *)
Theorem light_output (h : Host) (g : GBACartridgeGPIO) :
  (p2 g = false -> light_proposal h g)
  /\ (forall s h' n,
        light_only g -> latched_sample h = s -> Z.of_nat n <= 255 ->
        light_counting s (Z.of_nat n) (rounds (light_tick h') n (light_reset h g))).
Proof.
  split.
  - intros H2. unfold light_proposal.
    rewrite lightReadPins_low by exact H2.
    split; [reflexivity|].
    split; [rewrite outputPins_frame; reflexivity|].
    split; [rewrite outputPins_frame; reflexivity|].
    intros Hv Hd. unfold p3. rewrite outputPins_pin3 by assumption.
    rewrite outputPins_frame. reflexivity.
  - intros s h' n Hg <- Hn.
    apply (light_ticks_counting h' (latched_sample h) n 0); [|lia|lia].
    now apply light_reset_counting.
Qed.

Lemma light_output_witness :
  light_proposal lux3_host light_bus
  /\ light_counting 3 2 (rounds (light_tick bare_host) 2 (light_reset lux3_host light_bus))
  /\ light_counting 3 3 (rounds (light_tick bare_host) 3 (light_reset lux3_host light_bus)).
Proof.
  destruct (light_output lux3_host light_bus) as [H1 H2].
  split; [apply H1; reflexivity|].
  split.
  - apply (H2 3 bare_host 2%nat); [constructor; reflexivity|reflexivity|cbn; lia].
  - apply (H2 3 bare_host 3%nat); [constructor; reflexivity|reflexivity|cbn; lia].
Defined.

(** ** Save states *)

(** C10: restoring a snapshot leaves the attached-devices set of the bus
    as it was; the snapshot records the devices of the bus it was taken
    from, and the restored bus is the same whatever that field holds. *)
Theorem deserialize_keeps_devices (g : GBACartridgeGPIO) (state : GBASerializedState) :
  gpioDevices (GBAGPIODeserialize g state) = gpioDevices g
  /\ (forall g0 state0, st_devices (GBAGPIOSerialize g0 state0) = gpioDevices g0)
  /\ (forall d, GBAGPIODeserialize g (set_st_devices d state)
                = GBAGPIODeserialize g state).
Proof.
  split; [reflexivity|]. split; [reflexivity|]. intros d. reflexivity.
Qed.

(** C1 fails: a snapshot of [light_bus] restored into a freshly
    initialised bus leaves no device attached, and the next clock pulse
    publishes 1 where the original bus, whose sensor raises pin 3,
    publishes 8. *)
Lemma roundtrip_fresh_bus_differs :
  reachable light_bus
  /\ observations [(light_host, OpWrite GPIO_REG_DATA 1)] light_bus = [ObsWord 8]
  /\ observations [(light_host, OpWrite GPIO_REG_DATA 1)]
       (GBAGPIODeserialize (GBAGPIOInit zeroed 0)
          (GBAGPIOSerialize light_bus blank_state)) = [ObsWord 1].
Proof.
  split; [|split; reflexivity].
  apply reachable_final, reach_light, reach_init.
Qed.

(** The published word is not part of the snapshot either: restored over
    a different word, the same devices attached, a read differs. *)
Example roundtrip_other_word_differs :
  observations [(light_host, OpRead)] light_bus = [ObsWord 0]
  /\ observations [(light_host, OpRead)]
       (GBAGPIODeserialize (GBAGPIOInitLightSensor (GBAGPIOInit zeroed 5))
          (GBAGPIOSerialize light_bus blank_state)) = [ObsWord 5].
Proof. split; reflexivity. Qed.

(** C1, amended: a snapshot restored into a bus with the same devices
    attached and the same published word gives back the bus it was taken
    from, so every later sequence of operations ends in the same state
    and shows the same observations. *)
Theorem roundtrip_same_devices (g g' : GBACartridgeGPIO) (state : GBASerializedState)
    (ops : list (Host * Op)) :
  gpioDevices g' = gpioDevices g -> gpioBase g' = gpioBase g ->
  GBAGPIODeserialize g' (GBAGPIOSerialize g state) = g
  /\ run ops (GBAGPIODeserialize g' (GBAGPIOSerialize g state)) = run ops g.
Proof.
  intros Hd Hw.
  assert (E : GBAGPIODeserialize g' (GBAGPIOSerialize g state) = g).
  { destruct g, g'. cbn in Hd, Hw. subst. reflexivity. }
  split; [exact E|]. now rewrite E.
Qed.

Lemma roundtrip_same_devices_witness :
  let fresh := GBAGPIOInitLightSensor (GBAGPIOInit zeroed 0) in
  let pulse := [(light_host, OpWrite GPIO_REG_DATA 1); (light_host, OpRead)] in
  GBAGPIODeserialize fresh (GBAGPIOSerialize light_bus blank_state) = light_bus
  /\ run pulse (GBAGPIODeserialize fresh (GBAGPIOSerialize light_bus blank_state))
     = run pulse light_bus.
Proof.
  apply (roundtrip_same_devices light_bus
           (GBAGPIOInitLightSensor (GBAGPIOInit zeroed 0)) blank_state
           [(light_host, OpWrite GPIO_REG_DATA 1); (light_host, OpRead)]);
    reflexivity.
Defined.
